(** * Booking lifecycle of the car-rental backend

    A shallow embedding of [bookings/services.py], [bookings/models.py],
    [cars/models.py] and [CarService.update_car_status_after_booking] from
    [cars/services.py], with the properties of the booking conflict check,
    the price computation and the status lifecycle.

    Modelling conventions.
    - A datetime is the number of microseconds since 0001-01-01T00:00 UTC;
      comparing and subtracting aware datetimes works on these instants.
    - A [Decimal] is a coefficient and an exponent; multiplication rounds to
      the 28 significant digits of Python's default context.
    - The two tables are lists of rows.  [objects.create] appends a row with
      a fresh primary key, [save] rewrites the row with the instance's key,
      [objects.get] and [objects.filter] read the rows.  Inserts and updates
      are taken to succeed (column widths are not enforced on [save]).
    - [BookingService] is the service on aware datetimes and on totals that
      fit their column.  [PyBookingService] is the same code on Python's
      datetimes, naive or aware, with the column of [total_price] at the
      insert and at the reads; [create_booking], the [create] view and the
      concurrent requests are stated on it, and on aware datetimes and
      readable rows it is proved to be [BookingService] up to the column
      at the insert.
    - Exceptions are values: an operation returns [Ok v] or [Raise e]
      together with the database it leaves behind.
    - Every read of the clock ([timezone.now()], [auto_now],
      [auto_now_add]) is an explicit argument, in the order of the reads.
    - The payment gateway is an oracle passed to the call that uses it. *)

From Stdlib Require Import ZArith List String Bool Lia DecimalString DecimalZ.
Import ListNotations.
Local Open Scope string_scope.
Local Open Scope list_scope.
Local Open Scope Z_scope.

(** ** Python's [Decimal], as far as the services use it *)

Module PyDecimal.

Record t := mk { coef : Z; exp : Z }.

(** Precision of the default context. *)
Definition prec : Z := 28.

Fixpoint count_digits (fuel : nat) (n : Z) : Z :=
  match fuel with
  | O => 0
  | S fuel' => if n <? 10 then 1 else 1 + count_digits fuel' (n / 10)
  end.

(** Number of decimal digits of a non-negative coefficient. *)
Definition ndigits (n : Z) : Z := count_digits (S (Z.to_nat (Z.log2 n))) n.

(** [Decimal._fix] with ROUND_HALF_EVEN: a coefficient of more than [prec]
    digits loses its low digits. *)
Definition fix_ (d : t) : t :=
  let a := Z.abs (coef d) in
  if a <? 10 ^ prec then d
  else
    let shift := ndigits a - prec in
    let q := a / 10 ^ shift in
    let r := a mod 10 ^ shift in
    let half := 5 * 10 ^ (shift - 1) in
    let q' := if (half <? r) || ((r =? half) && Z.odd q) then q + 1 else q in
    if q' =? 10 ^ prec
    then mk (Z.sgn (coef d) * 10 ^ (prec - 1)) (exp d + shift + 1)
    else mk (Z.sgn (coef d) * q') (exp d + shift).

(** [Decimal(n)] for an int. *)
Definition of_int (n : Z) : t := mk n 0.

(** [a * b]. *)
Definition mul (a b : t) : t :=
  fix_ (mk (coef a * coef b) (exp a + exp b)).

(** [int(d)]: truncation towards zero. *)
Definition to_int (d : t) : Z :=
  if 0 <=? exp d then coef d * 10 ^ exp d
  else Z.quot (coef d) (10 ^ (- exp d)).

End PyDecimal.

(** ** Datetimes and timedeltas *)

Definition datetime := Z.

Definition us_per_day : Z := 86400 * 1000000.

(** [datetime.max] is 9999-12-31T23:59:59.999999, day 3652059 of the
    proleptic calendar. *)
Definition datetime_bound : Z := 3652059 * us_per_day.

Definition valid_datetime (t : datetime) : Prop := 0 <= t < datetime_bound.

(** [(end - start).days]: a timedelta is normalised so that its seconds and
    microseconds are non-negative, hence [days] is the floor. *)
Definition timedelta_days (end_ start : datetime) : Z := (end_ - start) / us_per_day.

(** ** Models *)

(** [Booking.STATUS]. *)
Inductive Status := pending | confirmed | cancelled | refunded | completed.

Definition Status_eqb (a b : Status) : bool :=
  match a, b with
  | pending, pending | confirmed, confirmed | cancelled, cancelled
  | refunded, refunded | completed, completed => true
  | _, _ => false
  end.

(** [x in xs] for a list literal of statuses. *)
Definition status_in (x : Status) (xs : list Status) : bool :=
  existsb (Status_eqb x) xs.

Module Booking.

Record t := mk {
  id : Z;
  user : Z;
  car : Z;
  start : datetime;
  end_ : datetime;
  total_price : PyDecimal.t;
  status : Status;
  stripe_payment_intent : option string;
  created_at : datetime
}.

Definition with_status (b : t) (s : Status) : t :=
  mk (id b) (user b) (car b) (start b) (end_ b) (total_price b) s
     (stripe_payment_intent b) (created_at b).

Definition with_stripe_payment_intent (b : t) (p : option string) : t :=
  mk (id b) (user b) (car b) (start b) (end_ b) (total_price b) (status b)
     p (created_at b).

(** [Booking.overlaps]. *)
Definition overlaps (self : t) (start' end' : datetime) : bool :=
  negb ((end_ self <=? start') || (start self >=? end')).

End Booking.

(** [Car.STATUS_CHOICES], [FUEL_TYPE_CHOICES], [TRANSMISSION_CHOICES]. *)
Inductive CarStatus := available | maintenance | unavailable | rented.
Inductive FuelType := gasoline | diesel | hybrid | electric.
Inductive Transmission := manual | automatic | cvt.

Definition CarStatus_eqb (a b : CarStatus) : bool :=
  match a, b with
  | available, available | maintenance, maintenance
  | unavailable, unavailable | rented, rented => true
  | _, _ => false
  end.

Module Car.

Record t := mk {
  id : Z;
  name : string;
  description : option string;
  make : string;
  model : string;
  year : Z;
  fuel_type : FuelType;
  transmission : Transmission;
  seats : Z;
  doors : Z;
  price_per_day : PyDecimal.t;
  location : string;
  status : CarStatus;
  features : option string;
  owner : Z;
  created_at : datetime;
  updated_at : datetime;
  is_active : bool
}.

Definition with_status (c : t) (s : CarStatus) : t :=
  mk (id c) (name c) (description c) (make c) (model c) (year c)
     (fuel_type c) (transmission c) (seats c) (doors c) (price_per_day c)
     (location c) s (features c) (owner c) (created_at c) (updated_at c)
     (is_active c).

Definition with_updated_at (c : t) (now : datetime) : t :=
  mk (id c) (name c) (description c) (make c) (model c) (year c)
     (fuel_type c) (transmission c) (seats c) (doors c) (price_per_day c)
     (location c) (status c) (features c) (owner c) (created_at c) now
     (is_active c).

Definition with_is_active (c : t) (a : bool) : t :=
  mk (id c) (name c) (description c) (make c) (model c) (year c)
     (fuel_type c) (transmission c) (seats c) (doors c) (price_per_day c)
     (location c) (status c) (features c) (owner c) (created_at c)
     (updated_at c) a.

(** The [is_available_for_booking] property. *)
Definition is_available_for_booking (self : t) : bool :=
  CarStatus_eqb (status self) available && is_active self.

(** [price_per_day] is a [DecimalField(max_digits=8, decimal_places=2)]
    with a positive value. *)
Definition valid_price (self : t) : Prop :=
  PyDecimal.exp (price_per_day self) = -2 /\
  0 < PyDecimal.coef (price_per_day self) < 10 ^ 8.

End Car.

(** ** The database and the exceptions *)

Record DB := mkDB {
  cars : list Car.t;
  bookings : list Booking.t;
  next_booking_id : Z
}.

Inductive Exception :=
| ValueError (msg : string)
| BookingConflictError (msg : string).

Inductive Res (A : Type) :=
| Ok (a : A)
| Raise (e : Exception).

Arguments Ok {A} a.
Arguments Raise {A} e.

(** A computation reads and writes the database and may raise. *)
Definition M (A : Type) : Type := DB -> Res A * DB.

Definition ret {A} (a : A) : M A := fun db => (Ok a, db).

Definition raise {A} (e : Exception) : M A := fun db => (Raise e, db).

Definition bind {A B} (m : M A) (k : A -> M B) : M B :=
  fun db =>
    match m db with
    | (Ok a, db') => k a db'
    | (Raise e, db') => (Raise e, db')
    end.

Notation "x <- m ;; k" := (bind m (fun x => k))
  (at level 61, m at next level, right associativity).

(** *** The ORM calls the services make *)

(** [Car.objects.get(pk=car_id)]; [None] stands for [Car.DoesNotExist]. *)
Definition Car_objects_get (pk : Z) : M (option Car.t) :=
  fun db => (Ok (find (fun c => Car.id c =? pk) (cars db)), db).

(** [Booking.objects.get(id=pk)]; [None] stands for [Booking.DoesNotExist]. *)
Definition Booking_objects_get (pk : Z) : M (option Booking.t) :=
  fun db => (Ok (find (fun b => Booking.id b =? pk) (bookings db)), db).

(** [Booking.objects.filter(car=car, status__in=statuses)], evaluated. *)
Definition Booking_objects_filter (car : Car.t) (statuses : list Status)
  : M (list Booking.t) :=
  fun db =>
    (Ok (filter (fun b => (Booking.car b =? Car.id car)
                          && status_in (Booking.status b) statuses)
                (bookings db)), db).

(** [Booking.objects.create(...)]: the row gets the next key of the
    sequence and, through [auto_now_add], the current time. *)
Definition Booking_objects_create (now : datetime) (user : Z) (car : Car.t)
    (start end_ : datetime) (total_price : PyDecimal.t) (status : Status)
  : M Booking.t :=
  fun db =>
    let b := Booking.mk (next_booking_id db) user (Car.id car) start end_
                        total_price status None now in
    (Ok b, mkDB (cars db) (bookings db ++ [b]) (next_booking_id db + 1)).

(** [booking.save()]: UPDATE of the row with the instance's key, INSERT
    when there is none. *)
Definition Booking_save (b : Booking.t) : M unit :=
  fun db =>
    let rows := bookings db in
    let rows' :=
      if existsb (fun r => Booking.id r =? Booking.id b) rows
      then map (fun r => if Booking.id r =? Booking.id b then b else r) rows
      else rows ++ [b] in
    (Ok tt, mkDB (cars db) rows' (next_booking_id db)).

(** [car.save()]: [updated_at] is an [auto_now] field, so it is set to the
    current time on the instance before the row is written. *)
Definition Car_save (now : datetime) (c : Car.t) : M Car.t :=
  fun db =>
    let c' := Car.with_updated_at c now in
    let rows := cars db in
    let rows' :=
      if existsb (fun r => Car.id r =? Car.id c') rows
      then map (fun r => if Car.id r =? Car.id c' then c' else r) rows
      else rows ++ [c'] in
    (Ok c', mkDB rows' (bookings db) (next_booking_id db)).

(** ** [bookings/services.py]: [BookingService] *)

Module BookingService.

(** The loop of [_is_car_available] over the evaluated queryset. *)
Fixpoint scan_conflicts (rows : list Booking.t) (start end_ : datetime) : bool :=
  match rows with
  | [] => true
  | booking :: rest =>
      if negb ((Booking.end_ booking <=? start) || (Booking.start booking >=? end_))
      then false
      else scan_conflicts rest start end_
  end.

Definition _is_car_available (car : Car.t) (start end_ : datetime) : M bool :=
  conflicting_bookings <- Booking_objects_filter car [pending; confirmed] ;;
  ret (scan_conflicts conflicting_bookings start end_).

Definition _calculate_total_price (car : Car.t) (start end_ : datetime)
  : PyDecimal.t :=
  let days := Z.max (timedelta_days end_ start) 1 in
  PyDecimal.mul (PyDecimal.of_int days) (Car.price_per_day car).

Definition create_booking (now : datetime) (user car_id : Z)
    (start end_ : datetime) : M Booking.t :=
  found <- Car_objects_get car_id ;;
  match found with
  | None => raise (ValueError "Car not found")
  | Some car =>
      free <- _is_car_available car start end_ ;;
      if negb free
      then raise (BookingConflictError "Car not available for selected dates")
      else
        let total_price := _calculate_total_price car start end_ in
        Booking_objects_create now user car start end_ total_price pending
  end.

(** The mutated instance is returned next to the database. *)
Definition cancel_booking (booking : Booking.t) : M Booking.t :=
  if negb (status_in (Booking.status booking) [pending; confirmed])
  then raise (ValueError "Cannot cancel booking in current status")
  else
    let booking' := Booking.with_status booking cancelled in
    _ <- Booking_save booking' ;;
    ret booking'.

End BookingService.

(** ** [bookings/services.py]: [PaymentService] *)

(** What [stripe.PaymentIntent.create] answers: [intent["id"]] and
    [intent["client_secret"]]. *)
Record Intent := mkIntent { intent_id : string; intent_client_secret : string }.

(** [stripe.PaymentIntent.create(amount=, currency=, metadata=)]. *)
Definition Gateway := Z -> string -> list (string * string) -> Intent.

(** The payment-intent object of a webhook event. *)
Record PaymentIntentObj := mkPI {
  pi_id : string;
  pi_metadata : list (string * string)
}.

(** A verified event: [event["type"]] and [event["data"]["object"]]. *)
Record Event := mkEvent { ev_type : string; ev_data_object : PaymentIntentObj }.

(** The dict [create_payment_intent] returns. *)
Record PaymentData := mkPaymentData { client_secret : string; pd_intent_id : string }.

(** [d.get(key)]. *)
Fixpoint dict_get (d : list (string * string)) (key : string) : option string :=
  match d with
  | [] => None
  | (k, v) :: rest => if String.eqb k key then Some v else dict_get rest key
  end.

(** [str(n)] for an int. *)
Definition str (n : Z) : string := NilZero.string_of_int (Z.to_int n).

Module PaymentService.

Definition create_payment_intent (stripe : Gateway) (booking : Booking.t)
  : M (PaymentData * Booking.t) :=
  if negb (Status_eqb (Booking.status booking) pending)
  then raise (ValueError "Booking is not in pending state")
  else
    let intent :=
      stripe (PyDecimal.to_int
                (PyDecimal.mul (Booking.total_price booking) (PyDecimal.of_int 100)))
             "usd"
             [("booking_id", str (Booking.id booking))] in
    let booking' :=
      Booking.with_stripe_payment_intent booking (Some (intent_id intent)) in
    _ <- Booking_save booking' ;;
    ret (mkPaymentData (intent_client_secret intent) (intent_id intent), booking').

Section Webhook.

(** The primary-key coercion of [Booking.objects.get(id=...)] applied to the
    metadata string; [None] when the string is not a number. *)
Variable to_python : string -> option Z.

Definition _handle_payment_success (payment_intent : PaymentIntentObj) : M unit :=
  match dict_get (pi_metadata payment_intent) "booking_id" with
  | None => ret tt
  | Some booking_id =>
      if String.eqb booking_id EmptyString then ret tt
      else
        match to_python booking_id with
        | None => raise (ValueError "Field 'id' expected a number")
        | Some pk =>
            found <- Booking_objects_get pk ;;
            match found with
            | Some booking => Booking_save (Booking.with_status booking confirmed)
            | None => ret tt
            end
        end
  end.

Definition handle_webhook_event (event : Event) : M unit :=
  if String.eqb (ev_type event) "payment_intent.succeeded"
  then _handle_payment_success (ev_data_object event)
  else ret tt.

End Webhook.

End PaymentService.

(** The coercion on the numerals [str] produces. *)
Definition decimal_pk (s : string) : option Z :=
  option_map Z.of_int (NilZero.int_of_string s).

(** ** [cars/services.py]: [CarService] *)

Module CarService.

(** The [.exists()] query: a pending or confirmed booking of the car with
    [start <= now_lte] and [end >= now_gte], the two clock reads of the
    filter. *)
Definition active_bookings_exist (car : Car.t) (now_lte now_gte : datetime)
  : M bool :=
  fun db =>
    (Ok (existsb (fun b => (Booking.car b =? Car.id car)
                           && status_in (Booking.status b) [pending; confirmed]
                           && (Booking.start b <=? now_lte)
                           && (Booking.end_ b >=? now_gte))
                 (bookings db)), db).

Definition update_car_status_after_booking (now_lte now_gte now_save : datetime)
    (car : Car.t) (booking_status : Status) : M Car.t :=
  if Status_eqb booking_status confirmed
  then Car_save now_save (Car.with_status car rented)
  else if status_in booking_status [cancelled; completed]
  then
    active_bookings <- active_bookings_exist car now_lte now_gte ;;
    if negb active_bookings
    then Car_save now_save (Car.with_status car available)
    else ret car
  else ret car.

End CarService.

(** * Vocabulary of the properties *)

(** ** The conflict rule *)

(** Booking [b] blocks the range [[start, end_)] on car [car_id]. *)
Definition blocks (car_id : Z) (start end_ : datetime) (b : Booking.t) : Prop :=
  Booking.car b = car_id /\
  (Booking.status b = pending \/ Booking.status b = confirmed) /\
  ~ (Booking.end_ b <= start \/ Booking.start b >= end_).

Definition conflict (db : DB) (car_id : Z) (start end_ : datetime) : Prop :=
  exists b, In b (bookings db) /\ blocks car_id start end_ b.

Definition car_exists (db : DB) (car_id : Z) (car : Car.t) : Prop :=
  Car_objects_get car_id db = (Ok (Some car), db).

(** The messages of the exceptions the services raise. *)
Definition conflict_message : string := "Car not available for selected dates".

Definition cancel_message : string := "Cannot cancel booking in current status".

Definition not_pending_message : string := "Booking is not in pending state".

(** ** Primary keys *)

(** The keys of the booking rows are distinct and below the next key of
    the sequence. *)
Definition keys_ok (db : DB) : Prop :=
  NoDup (map Booking.id (bookings db))
  /\ Forall (fun b => Booking.id b < next_booking_id db) (bookings db).


(** * Example data *)

Definition us_per_hour : Z := 3600 * 1000000.

(** [jan d h]: day [d] of January 2025 at [h]:00 UTC. *)
Definition jan (d h : Z) : datetime :=
  (739251 + (d - 1)) * us_per_day + h * us_per_hour.

(** 50.00 *)
Definition usd50 : PyDecimal.t := PyDecimal.mk 5000 (-2).

(** A car at 50.00 a day, with key 7. *)
Definition corolla (s : CarStatus) (active : bool) : Car.t :=
  Car.mk 7 "Corolla" None "Toyota" "Corolla" 2020 gasoline automatic 5 4
         usd50 "Lahore" s None 1 (jan 1 0) (jan 1 0) active.

(** A booking of that car by user 2. *)
Definition booked (id : Z) (start end_ : datetime) (s : Status)
    (ref : option string) : Booking.t :=
  Booking.mk id 2 7 start end_ (PyDecimal.mk 10000 (-2)) s ref (jan 1 0).

(** The car with one booking over [[Jan 1, Jan 3)]. *)
Definition db_one (cs : CarStatus) (active : bool) (s : Status)
    (ref : option string) : DB :=
  mkDB [corolla cs active] [booked 1 (jan 1 0) (jan 3 0) s ref] 2.

(** The car alone, never booked. *)
Definition db_empty (cs : CarStatus) (active : bool) : DB :=
  mkDB [corolla cs active] [] 1.

(** A gateway that answers with a fixed intent. *)
Definition gateway_answering (id secret : string) : Gateway :=
  fun _ _ _ => mkIntent id secret.

(** The event Stripe sends when the intent [pi] with metadata [md]
    succeeds. *)
Definition succeeded_event (pi : string) (md : list (string * string)) : Event :=
  mkEvent "payment_intent.succeeded" (mkPI pi md).

(** ** The car's derived status *)

(** Booking [b] is an active booking of [car] around the present moment:
    it began at or before the first clock read and ends at or after the
    second. *)
Definition covers_now (car : Car.t) (now_lte now_gte : datetime)
    (b : Booking.t) : Prop :=
  Booking.car b = Car.id car /\
  (Booking.status b = pending \/ Booking.status b = confirmed) /\
  Booking.start b <= now_lte /\ now_gte <= Booking.end_ b.

(** [car'] is [car] in every field but [status]. *)
Definition same_but_status (car car' : Car.t) : Prop :=
  Car.with_status car' (Car.status car) = car.

(** [car'] is [car] in every field but [status] and [updated_at]. *)
Definition same_but_status_and_updated_at (car car' : Car.t) : Prop :=
  Car.with_updated_at (Car.with_status car' (Car.status car))
                      (Car.updated_at car) = car.

(** The database with the status and the active flag of car [car_id]
    replaced. *)
Definition set_car_flags (s : CarStatus) (a : bool) (car_id : Z) (db : DB) : DB :=
  mkDB (map (fun c => if Car.id c =? car_id
                      then Car.with_is_active (Car.with_status c s) a
                      else c) (cars db))
       (bookings db) (next_booking_id db).

(** * Further code of the cited files, their callers and callees *)

(** ** [users/models.py]: the user model of [AUTH_USER_MODEL] *)

(** [User.ROLE_CHOICES]. *)
Inductive Role := customer | fleet | admin.

Definition Role_eqb (a b : Role) : bool :=
  match a, b with
  | customer, customer | fleet, fleet | admin, admin => true
  | _, _ => false
  end.

Module User.

Record t := mk {
  id : Z;
  username : string;
  role : Role;
  phone : string;
  is_verified : bool;
  created_at : datetime;
  updated_at : datetime
}.

Definition is_customer (self : t) : bool := Role_eqb (role self) customer.



End User.

(** ** [cars/models.py]: [CarManager], [Car.get_current_booking] *)

Module CarManager.

(** [available()], on the rows of the table. *)
Definition available (rows : list Car.t) : list Car.t :=
  filter (fun c => CarStatus_eqb (Car.status c) available) rows.

End CarManager.

Module CarModel.



End CarModel.

(** ** [cars/models.py]: [CarImage] *)

Module CarImage.

(** [pk] is [None] on an instance that was never saved. *)
Record t := mk {
  pk : option Z;
  car : Z;
  file : string;
  alt : string;
  is_primary : bool;
  order : Z;
  uploaded_at : datetime
}.

Definition with_is_primary (r : t) (p : bool) : t :=
  mk (pk r) (car r) (file r) (alt r) p (order r) (uploaded_at r).

Definition inserted (r : t) (key : Z) (now : datetime) : t :=
  mk (Some key) (car r) (file r) (alt r) (is_primary r) (order r) now.

Record Table := mkTable { rows : list t; next_id : Z }.

Definition pk_is (k : Z) (r : t) : bool :=
  match pk r with
  | Some k' => k' =? k
  | None => false
  end.

(** [super().save()]: INSERT with a fresh key when the instance has none or
    its key has no row ([uploaded_at] is [auto_now_add]), UPDATE of the row
    otherwise. *)
Definition Model_save (now : datetime) (self : t) (tb : Table) : t * Table :=
  match pk self with
  | None =>
      let self' := inserted self (next_id tb) now in
      (self', mkTable (rows tb ++ [self']) (next_id tb + 1))
  | Some k =>
      if existsb (pk_is k) (rows tb)
      then (self, mkTable (map (fun r => if pk_is k r then self else r) (rows tb))
                          (next_id tb))
      else
        let self' := inserted self k now in
        (self', mkTable (rows tb ++ [self']) (next_id tb))
  end.

(** [CarImage.save]. *)
Definition save (now : datetime) (self : t) (tb : Table) : t * Table :=
  let tb1 :=
    if is_primary self
    then mkTable (map (fun r => if (car r =? car self) && is_primary r
                                then with_is_primary r false else r) (rows tb))
                 (next_id tb)
    else tb in
  Model_save now self tb1.

(** Two primary images of one car are the same row. *)
Definition single_primary (tb : Table) : Prop :=
  forall r1 r2, In r1 (rows tb) -> In r2 (rows tb) ->
    car r1 = car r2 -> is_primary r1 = true -> is_primary r2 = true ->
    pk r1 = pk r2.

End CarImage.

(** ** [cars/services.py]: [get_available_cars], [can_user_review_car] *)

Module CarServiceQueries.

Section Search.

(** The [icontains] lookup of the database: [icontains text pattern]. *)
Variable icontains : string -> string -> bool.

(** [CarService.get_available_cars]; the result lists the rows of the
    queryset, whose ordering is not represented. *)
Definition get_available_cars (location : option string)
    (start_date end_date : option datetime) : M (list Car.t) :=
  fun db =>
    let queryset := filter Car.is_active (CarManager.available (cars db)) in
    let queryset :=
      match location with
      | Some l =>
          if String.eqb l EmptyString then queryset
          else filter (fun c => icontains (Car.location c) l) queryset
      | None => queryset
      end in
    let queryset :=
      match start_date, end_date with
      | Some start_date, Some end_date =>
          let conflicting_bookings :=
            map Booking.car
                (filter (fun b => status_in (Booking.status b) [pending; confirmed]
                                  && (Booking.start b <? end_date)
                                  && (Booking.end_ b >? start_date))
                        (bookings db)) in
          filter (fun c => negb (existsb (Z.eqb (Car.id c)) conflicting_bookings))
                 queryset
      | _, _ => queryset
      end in
    (Ok queryset, db).

End Search.

End CarServiceQueries.

Module CarReviewService.

(** [CarReviewService.can_user_review_car]. *)
Definition can_user_review_car (user : User.t) (car : Car.t)
    (booking : option Booking.t) : M bool :=
  match booking with
  | Some booking =>
      ret ((Booking.user booking =? User.id user)
           && (Booking.car booking =? Car.id car)
           && Status_eqb (Booking.status booking) completed)
  | None =>
      fun db =>
        (Ok (existsb (fun b => (Booking.user b =? User.id user)
                               && (Booking.car b =? Car.id car)
                               && Status_eqb (Booking.status b) completed)
                     (bookings db)), db)
  end.

End CarReviewService.

(** * The booking service on Python's datetimes and the declared column

    [BookingService] above is the service on aware datetimes, taken as
    instants, with an insert that always succeeds.  Two things of the
    program are outside it.  A timestamp without offset parses to a naive
    datetime, and Python raises [TypeError] when a naive datetime is
    compared with, or subtracted from, an aware one; stored datetimes are
    read back aware (time-zone support is on).  And [Booking.total_price]
    is a [DecimalField(max_digits=10, decimal_places=2)]: a total that does
    not fit is refused by a database that enforces the column, and where it
    is stored it cannot be read back or serialised
    ([decimal.InvalidOperation]).  [PyBookingService] is the same code of
    [bookings/services.py] with both. *)

(** A Python datetime: naive (wall-clock microseconds, no offset) or aware
    (an instant). *)
Inductive PyDatetime :=
| Naive (wall : Z)
| Aware (instant : datetime).

(** What a call can die of: an exception the services raise themselves,
    Python's [TypeError], [decimal.InvalidOperation], or the database's
    [DataError]. *)
Inductive Failure :=
| Service (e : Exception)
| TypeError
| InvalidOperation
| DataError.

Inductive Out (A : Type) :=
| Done (a : A)
| Fail (f : Failure).

Arguments Done {A} a.
Arguments Fail {A} f.

Definition lift {A} (r : Res A * DB) : Out A * DB :=
  match r with
  | (Ok a, db) => (Done a, db)
  | (Raise e, db) => (Fail (Service e), db)
  end.

(** [a <= b] *)
Definition dt_le (a b : PyDatetime) : Out bool :=
  match a, b with
  | Aware x, Aware y => Done (x <=? y)
  | Naive x, Naive y => Done (x <=? y)
  | _, _ => Fail TypeError
  end.

(** [a >= b] *)
Definition dt_ge (a b : PyDatetime) : Out bool :=
  match a, b with
  | Aware x, Aware y => Done (x >=? y)
  | Naive x, Naive y => Done (x >=? y)
  | _, _ => Fail TypeError
  end.

(** [a - b], a timedelta in microseconds. *)
Definition dt_sub (a b : PyDatetime) : Out Z :=
  match a, b with
  | Aware x, Aware y => Done (x - y)
  | Naive x, Naive y => Done (x - y)
  | _, _ => Fail TypeError
  end.

(** The coefficient of [d.quantize(Decimal("0.01"))], ROUND_HALF_EVEN. *)
Definition quantize_cents (d : PyDecimal.t) : Z :=
  if -2 <=? PyDecimal.exp d
  then PyDecimal.coef d * 10 ^ (PyDecimal.exp d + 2)
  else
    let shift := - 2 - PyDecimal.exp d in
    let a := Z.abs (PyDecimal.coef d) in
    let q := a / 10 ^ shift in
    let r := a mod 10 ^ shift in
    let half := 5 * 10 ^ (shift - 1) in
    Z.sgn (PyDecimal.coef d)
    * (if (half <? r) || ((r =? half) && Z.odd q) then q + 1 else q).

(** The total has at most the 10 digits of the column once it has two
    places: quantizing it with a precision of [max_digits] does not raise. *)
Definition total_price_fits (d : PyDecimal.t) : bool :=
  Z.abs (quantize_cents d) <? 10 ^ 10.

Module PyBookingService.

Section Stack.

(** [timezone.make_aware] in the default time zone, which the ORM applies to
    a naive datetime it is given to store. *)
Variable make_aware : Z -> datetime.

(** What the insert of a total outside the column fails with: [DataError]
    where the database enforces the column (PostgreSQL),
    [InvalidOperation] where the ORM formats the number for the column
    itself; [None] where the row is stored as it is (SQLite). *)
Variable oversize_insert : option Failure.

(** The instant the ORM stores for a datetime. *)
Definition to_db (t : PyDatetime) : datetime :=
  match t with
  | Aware instant => instant
  | Naive wall => make_aware wall
  end.

(** Evaluating the queryset of [_is_car_available]: every fetched row is
    converted, its total with the precision of the column. *)
Definition fetch_active (car : Car.t) (db : DB) : Out (list Booking.t) * DB :=
  match Booking_objects_filter car [pending; confirmed] db with
  | (Ok rows, db') =>
      if forallb (fun b => total_price_fits (Booking.total_price b)) rows
      then (Done rows, db')
      else (Fail InvalidOperation, db')
  | (Raise e, db') => (Fail (Service e), db')
  end.

(** The loop of [_is_car_available]: [booking.end] and [booking.start] are
    aware, [or] evaluates its second operand only when the first is false. *)
Fixpoint scan_conflicts (rows : list Booking.t) (start end_ : PyDatetime)
  : Out bool :=
  match rows with
  | [] => Done true
  | booking :: rest =>
      match dt_le (Aware (Booking.end_ booking)) start with
      | Fail f => Fail f
      | Done true => scan_conflicts rest start end_
      | Done false =>
          match dt_ge (Aware (Booking.start booking)) end_ with
          | Fail f => Fail f
          | Done true => scan_conflicts rest start end_
          | Done false => Done false
          end
      end
  end.

Definition _is_car_available (car : Car.t) (start end_ : PyDatetime) (db : DB)
  : Out bool * DB :=
  match fetch_active car db with
  | (Done conflicting_bookings, db') =>
      (scan_conflicts conflicting_bookings start end_, db')
  | (Fail f, db') => (Fail f, db')
  end.

Definition _calculate_total_price (car : Car.t) (start end_ : PyDatetime)
  : Out PyDecimal.t :=
  match dt_sub end_ start with
  | Fail f => Fail f
  | Done duration =>
      let days := Z.max (duration / us_per_day) 1 in
      Done (PyDecimal.mul (PyDecimal.of_int days) (Car.price_per_day car))
  end.

(** [Booking.objects.create(...)] with the column of [total_price]. *)
Definition Booking_objects_create (now : datetime) (user : Z) (car : Car.t)
    (start end_ : PyDatetime) (total_price : PyDecimal.t) (status : Status)
    (db : DB) : Out Booking.t * DB :=
  if total_price_fits total_price
  then lift (Booking_objects_create now user car (to_db start) (to_db end_)
               total_price status db)
  else
    match oversize_insert with
    | Some f => (Fail f, db)
    | None => lift (Booking_objects_create now user car (to_db start)
                      (to_db end_) total_price status db)
    end.

(** [BookingService.create_booking]; the instance it returns is given as
    the row that was stored. *)
Definition create_booking (now : datetime) (user car_id : Z)
    (start end_ : PyDatetime) (db : DB) : Out Booking.t * DB :=
  match Car_objects_get car_id db with
  | (Ok None, db1) => (Fail (Service (ValueError "Car not found")), db1)
  | (Ok (Some car), db1) =>
      match _is_car_available car start end_ db1 with
      | (Fail f, db2) => (Fail f, db2)
      | (Done free, db2) =>
          if negb free
          then (Fail (Service (BookingConflictError conflict_message)), db2)
          else
            match _calculate_total_price car start end_ with
            | Fail f => (Fail f, db2)
            | Done total_price =>
                Booking_objects_create now user car start end_ total_price
                                       pending db2
            end
      end
  | (Raise e, db1) => (Fail (Service e), db1)
  end.

End Stack.

End PyBookingService.

(** The pending and confirmed bookings of car [car_id], which the conflict
    query fetches, have totals that fit the column. *)
Definition readable (db : DB) (car_id : Z) : Prop :=
  forall b, In b (bookings db) -> Booking.car b = car_id ->
    Booking.status b = pending \/ Booking.status b = confirmed ->
    total_price_fits (Booking.total_price b) = true.

(** ** Two [create_booking] requests served at once

    No transaction or row lock surrounds the statements of
    [create_booking], so the database sees three separate statements per
    request: the car lookup, the conflict query and the insert.  A request
    is a small process that runs them one at a time. *)

Module Concurrent.

Inductive CreateReq :=
| AtGetCar (user car_id : Z) (start end_ : PyDatetime)
| AtCheck (user : Z) (car : Car.t) (start end_ : PyDatetime)
| AtInsert (user : Z) (car : Car.t) (start end_ : PyDatetime)
| Finished (r : Out Booking.t).

Section Stack.

Variable make_aware : Z -> datetime.
Variable oversize_insert : option Failure.

(** One database statement of the request, with the code up to the next. *)
Definition step (now : datetime) (p : CreateReq) (db : DB) : CreateReq * DB :=
  match p with
  | AtGetCar user car_id start end_ =>
      match Car_objects_get car_id db with
      | (Ok (Some car), db') => (AtCheck user car start end_, db')
      | (Ok None, db') =>
          (Finished (Fail (Service (ValueError "Car not found"))), db')
      | (Raise e, db') => (Finished (Fail (Service e)), db')
      end
  | AtCheck user car start end_ =>
      match PyBookingService._is_car_available car start end_ db with
      | (Done true, db') => (AtInsert user car start end_, db')
      | (Done false, db') =>
          (Finished (Fail (Service (BookingConflictError conflict_message))),
           db')
      | (Fail f, db') => (Finished (Fail f), db')
      end
  | AtInsert user car start end_ =>
      match PyBookingService._calculate_total_price car start end_ with
      | Fail f => (Finished (Fail f), db)
      | Done total_price =>
          match PyBookingService.Booking_objects_create make_aware
                  oversize_insert now user car start end_ total_price
                  pending db with
          | (r, db') => (Finished r, db')
          end
      end
  | Finished _ => (p, db)
  end.

(** The state of two requests and the database they share. *)
Record Sys := mkSys { req1 : CreateReq; req2 : CreateReq; sys_db : DB }.

(** [true] lets the first request make its next step, [false] the second. *)
Fixpoint run (now1 now2 : datetime) (schedule : list bool) (s : Sys) : Sys :=
  match schedule with
  | [] => s
  | true :: rest =>
      let (p, db) := step now1 (req1 s) (sys_db s) in
      run now1 now2 rest (mkSys p (req2 s) db)
  | false :: rest =>
      let (p, db) := step now2 (req2 s) (sys_db s) in
      run now1 now2 rest (mkSys (req1 s) p db)
  end.

End Stack.

Definition succeeded (p : CreateReq) : Prop :=
  exists b, p = Finished (Done b).

Definition conflicted (p : CreateReq) : Prop :=
  exists msg, p = Finished (Fail (Service (BookingConflictError msg))).

(** Exactly one of the two requests succeeded and the other met a
    conflict. *)
Definition exactly_one_succeeded (s : Sys) : Prop :=
  succeeded (req1 s) /\ conflicted (req2 s)
  \/ conflicted (req1 s) /\ succeeded (req2 s).

(** All schedules of [len = n + m] steps that give [n] steps to the first
    request and [m] to the second. *)
Fixpoint schedules (len n m : nat) : list (list bool) :=
  match len with
  | O => match n, m with O, O => [[]] | _, _ => [] end
  | S len' =>
      (match n with
       | O => []
       | S n' => map (cons true) (schedules len' n' m)
       end)
      ++ (match m with
          | O => []
          | S m' => map (cons false) (schedules len' n m')
          end)
  end.

(** The interleavings of two complete requests, three statements each. *)
Definition interleavings : list (list bool) := schedules 6 3 3.

(** Position in the schedule of the [k]-th step (from 0) of a request. *)
Fixpoint index_of_nth (who : bool) (k : nat) (schedule : list bool) : nat :=
  match schedule with
  | [] => O
  | x :: rest =>
      if Bool.eqb x who
      then match k with
           | O => O
           | S k' => S (index_of_nth who k' rest)
           end
      else S (index_of_nth who k rest)
  end.

Definition check_pos (who : bool) (schedule : list bool) : nat :=
  index_of_nth who 1 schedule.

Definition insert_pos (who : bool) (schedule : list bool) : nat :=
  index_of_nth who 2 schedule.

(** Both conflict queries run before either insert. *)
Definition checks_before_inserts (schedule : list bool) : bool :=
  (check_pos true schedule <? insert_pos false schedule)%nat
  && (check_pos false schedule <? insert_pos true schedule)%nat.

(** The schedule that serves the first request to its end, then the
    second, and the one that alternates between them. *)
Definition serial : list bool := [true; true; true; false; false; false].

Definition alternating : list bool := [true; false; true; false; true; false].

End Concurrent.

(** Users 2 and 3 both ask for the never-booked car from Jan 3 to Jan 5,
    with aware timestamps. *)
Definition two_requests : Concurrent.Sys :=
  Concurrent.mkSys (Concurrent.AtGetCar 2 7 (Aware (jan 3 0)) (Aware (jan 5 0)))
                   (Concurrent.AtGetCar 3 7 (Aware (jan 3 0)) (Aware (jan 5 0)))
                   (db_empty available true).

(** A car at 999999.99 a day, with key 8, never booked; and 101 days. *)
Definition limousine : Car.t :=
  Car.mk 8 "Limousine" None "Lincoln" "Town Car" 2020 gasoline automatic 8 4
         (PyDecimal.mk 99999999 (-2)) "Lahore" available None 1
         (jan 1 0) (jan 1 0) true.

Definition db_limousine : DB := mkDB [limousine] [] 1.

Definition days_101 : Z := 101 * us_per_day.

(** The default time zone of the examples is UTC. *)
Definition utc (wall : Z) : datetime := wall.

(** ** [bookings/views.py] *)

(** What a view answers with. *)
Inductive Body :=
| Detail (msg : string)
| BookingData (b : Booking.t)
| PaymentBody (p : PaymentData)
| NoBody.

(** The outcome of a view: a response with its status, the [Http404] that
    [get_object] and [get_object_or_404] raise, or an exception no handler
    of the view catches. *)
Inductive HttpResult :=
| Response (status : Z) (body : Body)
| Http404
| Uncaught (exception : string).

(** Python's truth value of [data.get(key)] for string values. *)
Definition truthy (v : option string) : bool :=
  match v with
  | Some s => negb (String.eqb s EmptyString)
  | None => false
  end.

(** The string a truthy [data.get(key)] holds. *)
Definition value_of (v : option string) : string :=
  match v with
  | Some s => s
  | None => EmptyString
  end.

(** The dict [_validate_booking_data] returns. *)
Record BookingDataIn := mkBookingDataIn {
  bd_car_id : string;
  bd_start : PyDatetime;
  bd_end : PyDatetime
}.

(** What the [create] view makes of a failure: the two handlers of the view
    catch [ValueError] and [BookingConflictError]; anything else is not
    caught. *)
Definition answer_of (f : Failure) : HttpResult :=
  match f with
  | Service (ValueError msg) => Response 400 (Detail msg)
  | Service (BookingConflictError msg) => Response 409 (Detail msg)
  | TypeError => Uncaught "TypeError"
  | InvalidOperation => Uncaught "InvalidOperation"
  | DataError => Uncaught "DataError"
  end.

Module BookingViewSet.


Section Create.

(** [django.utils.dateparse.parse_datetime]: [Ok None] for a string that is
    not well formatted, [Raise (ValueError _)] for a well formatted string
    that is no valid datetime; the datetime is aware when the string has an
    offset and naive when it has none. *)
Variable parse_datetime : string -> Res (option PyDatetime).

(** The coercion of a string to the UUID key of a car; [None] when the
    string is no UUID. *)
Variable uuid_to_python : string -> option Z.

Variable make_aware : Z -> datetime.
Variable oversize_insert : option Failure.

Definition _validate_booking_data (data : list (string * string))
  : Out BookingDataIn :=
  let car_id := dict_get data "car" in
  let start := dict_get data "start" in
  let end_ := dict_get data "end" in
  if negb (truthy car_id && truthy start && truthy end_)
  then Fail (Service (ValueError "car, start, and end are required fields"))
  else
    match parse_datetime (value_of start) with
    | Raise e => Fail (Service e)
    | Ok start_dt =>
        match parse_datetime (value_of end_) with
        | Raise e => Fail (Service e)
        | Ok end_dt =>
            match start_dt, end_dt with
            | Some start_dt', Some end_dt' =>
                match dt_ge start_dt' end_dt' with
                | Fail f => Fail f
                | Done true =>
                    Fail (Service
                            (ValueError "Start date must be before end date"))
                | Done false =>
                    Done (mkBookingDataIn (value_of car_id) start_dt' end_dt')
                end
            | _, _ =>
                Fail (Service
                        (ValueError "Invalid datetime format for start or end"))
            end
        end
    end.

(** [create]: the clock read is the one of [auto_now_add]; [serializer.data]
    renders the total with the precision of the column. *)
Definition create (now : datetime) (user : User.t)
    (data : list (string * string)) (db : DB) : HttpResult * DB :=
  match _validate_booking_data data with
  | Fail f => (answer_of f, db)
  | Done booking_data =>
      match uuid_to_python (bd_car_id booking_data) with
      | None => (Uncaught "ValidationError", db)
      | Some car_id =>
          match PyBookingService.create_booking make_aware oversize_insert now
                  (User.id user) car_id
                  (bd_start booking_data) (bd_end booking_data) db with
          | (Done booking, db') =>
              if total_price_fits (Booking.total_price booking)
              then (Response 201 (BookingData booking), db')
              else (Uncaught "InvalidOperation", db')
          | (Fail f, db') => (answer_of f, db')
          end
      end
  end.

End Create.


End BookingViewSet.

Module CreatePaymentIntentView.

Section Post.

(** The coercion of the [booking_id] of the request to a key. *)
Variable to_python : string -> option Z.


End Post.

End CreatePaymentIntentView.

Module WebhookView.

Section StripeWebhook.

(** The raw request, and [PaymentService.verify_webhook] on it: [None]
    when the signature check raises. *)
Variable Request : Type.
Variable verify_webhook : Request -> option Event.
Variable to_python : string -> option Z.


End StripeWebhook.

End WebhookView.

(** ** Vocabulary of the further properties *)

Definition active (b : Booking.t) : Prop :=
  Booking.status b = pending \/ Booking.status b = confirmed.

(** No two pending or confirmed bookings of one car overlap. *)
Definition no_double_booking (db : DB) : Prop :=
  forall b1 b2, In b1 (bookings db) -> In b2 (bookings db) ->
    Booking.id b1 <> Booking.id b2 -> Booking.car b1 = Booking.car b2 ->
    active b1 -> active b2 ->
    Booking.end_ b1 <= Booking.start b2 \/ Booking.start b1 >= Booking.end_ b2.

(** [b'] is [b] in every field but [status]. *)
Definition same_but_booking_status (b b' : Booking.t) : Prop :=
  Booking.with_status b' (Booking.status b) = b.


(** Example users and requests. *)
Definition alice : User.t := User.mk 2 "alice" customer "" true (jan 1 0) (jan 1 0).




(** Oracles for the examples: two timestamps and the key of the car. *)
Definition parse_two_dates (s : string) : Res (option PyDatetime) :=
  if String.eqb s "2025-01-03T00:00:00Z" then Ok (Some (Aware (jan 3 0)))
  else if String.eqb s "2025-01-05T00:00:00Z" then Ok (Some (Aware (jan 5 0)))
  else Ok None.

Definition uuid_of_corolla (s : string) : option Z :=
  if String.eqb s "00000000-0000-0000-0000-000000000007" then Some 7 else None.

Definition booking_request : list (string * string) :=
  [("car", "00000000-0000-0000-0000-000000000007");
   ("start", "2025-01-03T00:00:00Z");
   ("end", "2025-01-05T00:00:00Z")].
(** * Properties *)

Lemma Status_eqb_spec a b : reflect (a = b) (Status_eqb a b).
Proof. destruct a, b; simpl; constructor; congruence. Qed.

(** ** The conflict rule *)

Lemma status_in_active s :
  status_in s [pending; confirmed] = true <-> s = pending \/ s = confirmed.
Proof. destruct s; simpl; split; intros H; try discriminate; auto;
  destruct H; discriminate. Qed.

Lemma scan_conflicts_true rows start end_ :
  BookingService.scan_conflicts rows start end_ = true <->
  forall b, In b rows -> Booking.end_ b <= start \/ Booking.start b >= end_.
Proof.
  induction rows as [|r rows IH]; simpl.
  - split; [intros _ b []|reflexivity].
  - destruct (Booking.end_ r <=? start) eqn:E1; simpl.
    + apply Z.leb_le in E1. rewrite IH. split.
      * intros H b [<-|Hb]; auto.
      * intros H b Hb. apply H. auto.
    + destruct (Booking.start r >=? end_) eqn:E2; simpl.
      * apply Z.geb_le in E2. rewrite IH. split.
        -- intros H b [<-|Hb]; [right; lia|auto].
        -- intros H b Hb. apply H. auto.
      * split; [discriminate|]. intros H. exfalso.
        destruct (H r (or_introl eq_refl)) as [Hl|Hg].
        -- apply Z.leb_le in Hl. congruence.
        -- apply Z.ge_le in Hg. apply Z.geb_le in Hg. congruence.
  Qed.


Lemma scan_conflicts_overlaps rows start end_ :
  BookingService.scan_conflicts rows start end_
  = negb (existsb (fun b => Booking.overlaps b start end_) rows).
Proof.
  induction rows as [|r rows IH]; simpl; [reflexivity|].
  unfold Booking.overlaps at 1.
  destruct (negb ((Booking.end_ r <=? start) || (Booking.start r >=? end_)));
    [reflexivity|exact IH].
Qed.

Lemma car_exists_id db car_id car : car_exists db car_id car -> Car.id car = car_id.
Proof.
  unfold car_exists, Car_objects_get. intros H. inversion H as [Hf].
  apply find_some in Hf. destruct Hf as [_ Hf]. now apply Z.eqb_eq in Hf.
Qed.

Lemma is_car_available_spec db car start end_ :
  exists free, BookingService._is_car_available car start end_ db = (Ok free, db) /\
    (free = true <-> ~ conflict db (Car.id car) start end_).
Proof.
  unfold BookingService._is_car_available, bind, Booking_objects_filter, ret.
  eexists. split; [reflexivity|].
  rewrite scan_conflicts_true. split.
  - intros H [b [Hin [Hc [Hs Ho]]]]. apply Ho, H.
    apply filter_In. split; [assumption|].
    apply andb_true_iff. split; [now apply Z.eqb_eq|now apply status_in_active].
  - intros H b Hb. apply filter_In in Hb. destruct Hb as [Hin Hb].
    apply andb_true_iff in Hb. destruct Hb as [Hc Hs].
    apply Z.eqb_eq in Hc. apply status_in_active in Hs.
    destruct (Z_le_gt_dec (Booking.end_ b) start) as [|Hgt]; [now left|].
    destruct (Z_le_gt_dec end_ (Booking.start b)) as [|Hgt']; [right; lia|].
    exfalso. apply H. exists b. split; [assumption|].
    repeat split; try assumption. lia.
Qed.

Lemma create_booking_free now user car_id start end_ db car :
  car_exists db car_id car -> ~ conflict db car_id start end_ ->
  let b := Booking.mk (next_booking_id db) user car_id start end_
             (BookingService._calculate_total_price car start end_)
             pending None now in
  BookingService.create_booking now user car_id start end_ db =
  (Ok b, mkDB (cars db) (bookings db ++ [b]) (next_booking_id db + 1)).
Proof.
  intros Hcar Hfree. pose proof (car_exists_id _ _ _ Hcar) as Hid.
  unfold BookingService.create_booking, bind. rewrite Hcar.
  destruct (is_car_available_spec db car start end_) as [free [Hrun Hiff]].
  rewrite Hrun. rewrite Hid in Hiff. apply Hiff in Hfree. subst free. simpl.
  unfold Booking_objects_create. now rewrite Hid.
Qed.

Lemma create_booking_conflict now user car_id start end_ db car :
  car_exists db car_id car -> conflict db car_id start end_ ->
  BookingService.create_booking now user car_id start end_ db =
  (Raise (BookingConflictError conflict_message), db).
Proof.
  intros Hcar Hc. pose proof (car_exists_id _ _ _ Hcar) as Hid.
  unfold BookingService.create_booking, bind. rewrite Hcar.
  destruct (is_car_available_spec db car start end_) as [free [Hrun Hiff]].
  rewrite Hrun. rewrite Hid in Hiff.
  destruct free; [exfalso; now apply (proj1 Hiff)|reflexivity].
Qed.

(** An unknown car: the [ValueError] of a missing car, and no row. *)
Lemma create_booking_unknown_car now user car_id start end_ db :
  Car_objects_get car_id db = (Ok None, db) ->
  BookingService.create_booking now user car_id start end_ db
  = (Raise (ValueError "Car not found"), db).
Proof.
  intros H. unfold BookingService.create_booking, bind. now rewrite H.
Qed.

(** ** The price *)

Lemma fix_small d :
  Z.abs (PyDecimal.coef d) < 10 ^ PyDecimal.prec -> PyDecimal.fix_ d = d.
Proof.
  intros H. unfold PyDecimal.fix_.
  destruct (Z.ltb_spec (Z.abs (PyDecimal.coef d)) (10 ^ PyDecimal.prec));
    [reflexivity|lia].
Qed.

Lemma billed_days_bounds start end_ :
  valid_datetime start -> valid_datetime end_ -> start < end_ ->
  1 <= Z.max (timedelta_days end_ start) 1 <= 3652059.
Proof.
  unfold valid_datetime, datetime_bound, timedelta_days. intros Hs He Hlt.
  assert (Hpos : 0 < us_per_day) by (vm_compute; reflexivity).
  assert ((end_ - start) / us_per_day < 3652059).
  { apply Z.div_lt_upper_bound; [assumption|]. lia. }
  lia.
Qed.

Lemma calculate_total_price_exact car start end_ :
  Car.valid_price car -> valid_datetime start -> valid_datetime end_ ->
  start < end_ ->
  BookingService._calculate_total_price car start end_ =
  PyDecimal.mk (Z.max ((end_ - start) / us_per_day) 1
                * PyDecimal.coef (Car.price_per_day car)) (-2).
Proof.
  intros [Hexp Hcoef] Hs He Hlt.
  pose proof (billed_days_bounds _ _ Hs He Hlt) as Hd.
  unfold BookingService._calculate_total_price, PyDecimal.mul, PyDecimal.of_int.
  fold (timedelta_days end_ start).
  set (days := Z.max (timedelta_days end_ start) 1) in *.
  rewrite fix_small; simpl.
  - now rewrite Hexp.
  - set (c := PyDecimal.coef (Car.price_per_day car)) in *.
    assert (0 < days * c) by nia.
    assert (days * c < 3652060 * 10 ^ 8) by nia.
    assert (3652060 * 10 ^ 8 < 10 ^ PyDecimal.prec) by (vm_compute; reflexivity).
    lia.
Qed.

(** C4. A booking created by [create_booking] with [start < end_] carries
    the total [days * price_per_day], where [days] is the number of whole
    days in [end_ - start] and at least 1; the product is exact and keeps the
    two decimal places of the daily price.  A booking shorter than 24 hours
    costs one day. *)
Theorem total_price_is_days_times_daily_price
    now user car_id start end_ db car b db' :
  car_exists db car_id car -> Car.valid_price car ->
  valid_datetime start -> valid_datetime end_ -> start < end_ ->
  BookingService.create_booking now user car_id start end_ db = (Ok b, db') ->
  In b (bookings db')
  /\ Booking.total_price b =
     PyDecimal.mk (Z.max ((end_ - start) / us_per_day) 1
                   * PyDecimal.coef (Car.price_per_day car)) (-2)
  /\ (end_ - start < us_per_day ->
      Booking.total_price b = Car.price_per_day car).
Proof.
  intros Hcar Hprice Hs He Hlt Hrun.
  assert (Hfree : ~ conflict db car_id start end_).
  { intros Hc. rewrite (create_booking_conflict _ _ _ _ _ _ _ Hcar Hc) in Hrun.
    discriminate. }
  rewrite (create_booking_free _ _ _ _ _ _ _ Hcar Hfree) in Hrun.
  inversion Hrun as [[Hb Hdb]]. clear Hrun. simpl.
  rewrite (calculate_total_price_exact _ _ _ Hprice Hs He Hlt).
  split; [apply in_or_app; right; left; reflexivity|].
  split; [reflexivity|].
  intros Hshort.
  assert (Hpos : 0 < us_per_day) by (vm_compute; reflexivity).
  rewrite (Z.div_small (end_ - start) us_per_day) by lia.
  destruct Hprice as [Hexp _]. destruct (Car.price_per_day car) as [c e].
  cbn [PyDecimal.exp PyDecimal.coef] in *. subst e. f_equal.
  change (Z.max 0 1) with 1. lia.
Qed.

Lemma total_price_is_days_times_daily_price_witness :
  (let b := Booking.mk 1 2 7 (jan 1 10) (jan 2 10) usd50 pending None (jan 1 9) in
   BookingService.create_booking (jan 1 9) 2 7 (jan 1 10) (jan 2 10)
     (db_empty available true)
   = (Ok b, mkDB [corolla available true] [b] 2)
   /\ In b [b] /\ Booking.total_price b = usd50)
  /\ (let b := Booking.mk 1 2 7 (jan 1 10) (jan 1 14) usd50 pending None (jan 1 9) in
   BookingService.create_booking (jan 1 9) 2 7 (jan 1 10) (jan 1 14)
     (db_empty available true)
   = (Ok b, mkDB [corolla available true] [b] 2)
   /\ In b [b] /\ Booking.total_price b = usd50).
Proof.
  assert (Hcar : car_exists (db_empty available true) 7 (corolla available true))
    by reflexivity.
  assert (Hprice : Car.valid_price (corolla available true))
    by (split; [reflexivity|split; reflexivity]).
  assert (Hv : forall d h, 1 <= d <= 31 -> 0 <= h < 24 -> valid_datetime (jan d h)).
  { intros d h Hd Hh. unfold valid_datetime, jan, datetime_bound, us_per_day,
      us_per_hour. lia. }
  split; intros b.
  - assert (Hrun : BookingService.create_booking (jan 1 9) 2 7 (jan 1 10)
                     (jan 2 10) (db_empty available true)
                   = (Ok b, mkDB [corolla available true] [b] 2))
      by (vm_compute; reflexivity).
    destruct (total_price_is_days_times_daily_price
                (jan 1 9) 2 7 (jan 1 10) (jan 2 10) (db_empty available true)
                (corolla available true) _ _ Hcar Hprice
                (Hv 1 10 ltac:(lia) ltac:(lia)) (Hv 2 10 ltac:(lia) ltac:(lia))
                ltac:(vm_compute; reflexivity) Hrun) as [Hin [Hp _]].
    split; [exact Hrun|]. split; [exact Hin|]. rewrite Hp. reflexivity.
  - assert (Hrun : BookingService.create_booking (jan 1 9) 2 7 (jan 1 10)
                     (jan 1 14) (db_empty available true)
                   = (Ok b, mkDB [corolla available true] [b] 2))
      by (vm_compute; reflexivity).
    destruct (total_price_is_days_times_daily_price
                (jan 1 9) 2 7 (jan 1 10) (jan 1 14) (db_empty available true)
                (corolla available true) _ _ Hcar Hprice
                (Hv 1 10 ltac:(lia) ltac:(lia)) (Hv 1 14 ltac:(lia) ltac:(lia))
                ltac:(vm_compute; reflexivity) Hrun) as [Hin [_ Hp]].
    split; [exact Hrun|]. split; [exact Hin|]. apply Hp. vm_compute. reflexivity.
Defined.

(** ** Saving and reading back a booking row *)

Section Rows.

Variable A : Type.
Variable key : A -> Z.

Lemma find_replaced (b : A) rows :
  existsb (fun r => key r =? key b) rows = true ->
  find (fun r => key r =? key b)
       (map (fun r => if key r =? key b then b else r) rows)
  = Some b.
Proof.
  induction rows as [|r rows IH]; simpl; [discriminate|].
  destruct (key r =? key b) eqn:E; simpl.
  - now rewrite Z.eqb_refl.
  - rewrite E. exact IH.
Qed.

Lemma find_appended (b : A) rows :
  existsb (fun r => key r =? key b) rows = false ->
  find (fun r => key r =? key b) (rows ++ [b]) = Some b.
Proof.
  induction rows as [|r rows IH]; simpl.
  - now rewrite Z.eqb_refl.
  - destruct (key r =? key b); simpl; [discriminate|exact IH].
Qed.

Lemma find_other_replaced (b : A) k rows :
  k <> key b ->
  find (fun r => key r =? k)
       (map (fun r => if key r =? key b then b else r) rows)
  = find (fun r => key r =? k) rows.
Proof.
  intros Hk. induction rows as [|r rows IH]; simpl; [reflexivity|].
  destruct (key r =? key b) eqn:E.
  - apply Z.eqb_eq in E.
    destruct (Z.eqb_spec (key b) k); [congruence|].
    destruct (Z.eqb_spec (key r) k); [congruence|]. exact IH.
  - destruct (key r =? k); [reflexivity|exact IH].
Qed.

Lemma find_other_appended (b : A) k rows :
  k <> key b ->
  find (fun r => key r =? k) (rows ++ [b])
  = find (fun r => key r =? k) rows.
Proof.
  intros Hk. induction rows as [|r rows IH]; simpl.
  - destruct (Z.eqb_spec (key b) k); [congruence|reflexivity].
  - destruct (key r =? k); [reflexivity|exact IH].
Qed.

End Rows.

(** After [b.save()] the row of [b]'s key is [b], the other rows and the
    cars are as before. *)
Lemma Booking_save_spec b db :
  exists db',
    Booking_save b db = (Ok tt, db')
    /\ Booking_objects_get (Booking.id b) db' = (Ok (Some b), db')
    /\ cars db' = cars db
    /\ next_booking_id db' = next_booking_id db
    /\ (forall k, k <> Booking.id b ->
          fst (Booking_objects_get k db') = fst (Booking_objects_get k db)).
Proof.
  unfold Booking_save, Booking_objects_get. eexists. split; [reflexivity|].
  simpl.
  destruct (existsb (fun r => Booking.id r =? Booking.id b) (bookings db)) eqn:E.
  - rewrite (find_replaced _ Booking.id _ _ E). repeat split.
    intros k Hk. now rewrite (find_other_replaced _ Booking.id).
  - rewrite (find_appended _ Booking.id _ _ E). repeat split.
    intros k Hk. now rewrite (find_other_appended _ Booking.id).
Qed.

(** After [c.save()] at time [now] the row of [c]'s key is [c] with the
    new [updated_at]; the other rows and the bookings are as before. *)
Lemma Car_save_spec now c db :
  exists db',
    Car_save now c db = (Ok (Car.with_updated_at c now), db')
    /\ Car_objects_get (Car.id c) db' = (Ok (Some (Car.with_updated_at c now)), db')
    /\ bookings db' = bookings db
    /\ next_booking_id db' = next_booking_id db
    /\ (forall k, k <> Car.id c ->
          fst (Car_objects_get k db') = fst (Car_objects_get k db)).
Proof.
  unfold Car_save, Car_objects_get. eexists. split; [reflexivity|].
  cbn [cars bookings next_booking_id fst].
  change (Car.id (Car.with_updated_at c now)) with (Car.id c).
  set (c' := Car.with_updated_at c now).
  change (Car.id c) with (Car.id c').
  destruct (existsb (fun r => Car.id r =? Car.id c') (cars db)) eqn:E.
  - rewrite (find_replaced _ Car.id _ _ E). repeat split.
    intros k Hk. now rewrite (find_other_replaced _ Car.id).
  - rewrite (find_appended _ Car.id _ _ E). repeat split.
    intros k Hk. now rewrite (find_other_appended _ Car.id).
Qed.

(** ** Primary keys stay distinct *)

Lemma create_booking_keys_ok now user car_id start end_ db r db' :
  keys_ok db ->
  BookingService.create_booking now user car_id start end_ db = (r, db') ->
  keys_ok db'.
Proof.
  intros [Hnd Hlt]. unfold BookingService.create_booking, bind.
  unfold Car_objects_get at 1.
  destruct (find (fun c => Car.id c =? car_id) (cars db)) as [car|].
  - destruct (is_car_available_spec db car start end_) as [free [Hrun _]].
    rewrite Hrun. destruct free; simpl.
    + unfold Booking_objects_create. intros H. inversion H. subst r db'.
      clear H. split; cbn [bookings next_booking_id].
      * rewrite map_app. cbn [map Booking.id].
        apply NoDup_app. repeat split.
        -- exact Hnd.
        -- constructor; [intros []|constructor].
        -- intros k Hk [<-|[]]. apply in_map_iff in Hk.
           destruct Hk as [b [Hb Hin]].
           rewrite Forall_forall in Hlt. specialize (Hlt b Hin). lia.
      * apply Forall_app. split.
        -- eapply Forall_impl; [|exact Hlt]. intros b Hb. cbn beta in *. lia.
        -- constructor; [cbn [Booking.id]; lia|constructor].
    + intros H. inversion H. subst. split; assumption.
  - intros H. inversion H. subst. split; assumption.
Qed.

Lemma map_key_replaced (b : Booking.t) rows :
  map Booking.id
      (map (fun r => if Booking.id r =? Booking.id b then b else r) rows)
  = map Booking.id rows.
Proof.
  induction rows as [|r rows IH]; simpl; [reflexivity|].
  rewrite IH. destruct (Z.eqb_spec (Booking.id r) (Booking.id b)) as [E|];
    [now rewrite E|reflexivity].
Qed.

(** Saving an instance that was read from the table keeps the keys. *)
Lemma Booking_save_keys_ok b db db' :
  keys_ok db ->
  existsb (fun r => Booking.id r =? Booking.id b) (bookings db) = true ->
  Booking_save b db = (Ok tt, db') ->
  keys_ok db'.
Proof.
  intros [Hnd Hlt] Hex. unfold Booking_save. rewrite Hex.
  intros H. inversion H. subst db'. clear H.
  split; cbn [bookings next_booking_id].
  - now rewrite map_key_replaced.
  - rewrite Forall_forall in *. intros x Hx. apply in_map_iff in Hx.
    destruct Hx as [r [Hr Hin]]. specialize (Hlt r Hin).
    destruct (Z.eqb_spec (Booking.id r) (Booking.id b)) as [E|]; subst x;
      [now rewrite <- E|assumption].
Qed.

(** ** Cancelling *)

Lemma cancel_booking_active booking db :
  Booking.status booking = pending \/ Booking.status booking = confirmed ->
  exists db',
    BookingService.cancel_booking booking db
    = (Ok (Booking.with_status booking cancelled), db')
    /\ Booking_save (Booking.with_status booking cancelled) db = (Ok tt, db').
Proof.
  intros H. apply status_in_active in H.
  unfold BookingService.cancel_booking. rewrite H. simpl.
  unfold bind, ret. unfold Booking_save at 1. eexists. split; reflexivity.
Qed.

Lemma cancel_booking_inactive booking db :
  ~ (Booking.status booking = pending \/ Booking.status booking = confirmed) ->
  BookingService.cancel_booking booking db
  = (Raise (ValueError cancel_message), db).
Proof.
  intros H. unfold BookingService.cancel_booking.
  destruct (status_in (Booking.status booking) [pending; confirmed]) eqn:E.
  - apply status_in_active in E. contradiction.
  - reflexivity.
Qed.

(** C5. [cancel_booking] succeeds exactly when the booking is pending or
    confirmed, and then the instance and its row are the booking with
    status [cancelled], every other field, every other row and the cars
    being as before; from any other status it raises the [ValueError] of
    an invalid transition and the database is unchanged. *)
Theorem cancel_booking_iff_cancellable booking db :
  ((Booking.status booking = pending \/ Booking.status booking = confirmed)
   <-> exists b' db', BookingService.cancel_booking booking db = (Ok b', db'))
  /\ ((Booking.status booking = pending \/ Booking.status booking = confirmed) ->
      exists db',
        BookingService.cancel_booking booking db
        = (Ok (Booking.with_status booking cancelled), db')
        /\ Booking_objects_get (Booking.id booking) db'
           = (Ok (Some (Booking.with_status booking cancelled)), db')
        /\ cars db' = cars db
        /\ (forall k, k <> Booking.id booking ->
              fst (Booking_objects_get k db') = fst (Booking_objects_get k db)))
  /\ (~ (Booking.status booking = pending \/ Booking.status booking = confirmed) ->
      BookingService.cancel_booking booking db
      = (Raise (ValueError cancel_message), db)).
Proof.
  split; [split|split].
  - intros H. destruct (cancel_booking_active booking db H) as [db' [Hrun _]].
    eauto.
  - intros [b' [db' Hrun]].
    destruct (status_in (Booking.status booking) [pending; confirmed]) eqn:E.
    + now apply status_in_active.
    + unfold BookingService.cancel_booking in Hrun. rewrite E in Hrun.
      discriminate.
  - intros H. destruct (cancel_booking_active booking db H) as [db' [Hrun Hsave]].
    destruct (Booking_save_spec (Booking.with_status booking cancelled) db)
      as [db2 [Hsave2 [Hget [Hcars [_ Hother]]]]].
    rewrite Hsave in Hsave2. inversion Hsave2. subst db2.
    exists db'. repeat split; assumption.
  - apply cancel_booking_inactive.
Qed.

Lemma cancel_booking_iff_cancellable_witness :
  BookingService.cancel_booking (booked 1 (jan 1 0) (jan 3 0) confirmed None)
    (db_one rented true confirmed None)
  = (Ok (booked 1 (jan 1 0) (jan 3 0) cancelled None),
     db_one rented true cancelled None)
  /\ BookingService.cancel_booking (booked 1 (jan 1 0) (jan 3 0) completed None)
       (db_one available true completed None)
     = (Raise (ValueError cancel_message), db_one available true completed None).
Proof.
  split.
  - destruct (cancel_booking_iff_cancellable
                (booked 1 (jan 1 0) (jan 3 0) confirmed None)
                (db_one rented true confirmed None)) as [_ [H _]].
    destruct (H (or_intror eq_refl)) as [db' [Hrun _]].
    rewrite Hrun. vm_compute in Hrun. vm_compute.
    inversion Hrun. reflexivity.
  - destruct (cancel_booking_iff_cancellable
                (booked 1 (jan 1 0) (jan 3 0) completed None)
                (db_one available true completed None)) as [_ [_ H]].
    apply H. intros [E|E]; discriminate E.
Defined.

(** ** Payment intents *)

Lemma create_payment_intent_pending stripe booking db :
  Booking.status booking = pending ->
  let intent :=
    stripe (PyDecimal.to_int (PyDecimal.mul (Booking.total_price booking)
                                            (PyDecimal.of_int 100)))
           "usd" [("booking_id", str (Booking.id booking))] in
  let booking' :=
    Booking.with_stripe_payment_intent booking (Some (intent_id intent)) in
  exists db',
    PaymentService.create_payment_intent stripe booking db
    = (Ok (mkPaymentData (intent_client_secret intent) (intent_id intent),
           booking'), db')
    /\ Booking_save booking' db = (Ok tt, db').
Proof.
  intros H intent booking'.
  unfold PaymentService.create_payment_intent. rewrite H. simpl.
  unfold bind, ret. unfold Booking_save at 1. eexists. split; reflexivity.
Qed.

Lemma create_payment_intent_not_pending stripe booking db :
  Booking.status booking <> pending ->
  PaymentService.create_payment_intent stripe booking db
  = (Raise (ValueError not_pending_message), db).
Proof.
  intros H. unfold PaymentService.create_payment_intent.
  destruct (Status_eqb_spec (Booking.status booking) pending);
    [contradiction|reflexivity].
Qed.

(** C6. [create_payment_intent] succeeds exactly when the booking is
    pending; otherwise it raises the [ValueError] of an invalid state and
    changes nothing.  On success the gateway's intent id is stored on the
    instance and on its row, the client secret is returned and the status
    stays [pending]; a second call for the booking succeeds again and
    replaces the stored reference by the id of the second intent. *)
Theorem create_payment_intent_iff_pending stripe booking db :
  let request (g : Gateway) :=
    g (PyDecimal.to_int (PyDecimal.mul (Booking.total_price booking)
                                       (PyDecimal.of_int 100)))
      "usd" [("booking_id", str (Booking.id booking))] in
  let stored (g : Gateway) :=
    Booking.with_stripe_payment_intent booking (Some (intent_id (request g))) in
  (Booking.status booking = pending
   <-> exists r db',
         PaymentService.create_payment_intent stripe booking db = (Ok r, db'))
  /\ (Booking.status booking <> pending ->
      PaymentService.create_payment_intent stripe booking db
      = (Raise (ValueError not_pending_message), db))
  /\ (Booking.status booking = pending ->
      exists db',
        PaymentService.create_payment_intent stripe booking db
        = (Ok (mkPaymentData (intent_client_secret (request stripe))
                             (intent_id (request stripe)),
               stored stripe), db')
        /\ Booking.status (stored stripe) = pending
        /\ Booking_objects_get (Booking.id booking) db'
           = (Ok (Some (stored stripe)), db')
        /\ forall stripe2 : Gateway,
           exists db'',
             PaymentService.create_payment_intent stripe2 (stored stripe) db'
             = (Ok (mkPaymentData (intent_client_secret (request stripe2))
                                  (intent_id (request stripe2)),
                    stored stripe2), db'')
             /\ Booking_objects_get (Booking.id booking) db''
                = (Ok (Some (stored stripe2)), db'')).
Proof.
  intros request stored. split; [split|split].
  - intros H.
    destruct (create_payment_intent_pending stripe booking db H) as [db' [Hrun _]].
    eauto.
  - intros [r [db' Hrun]].
    destruct (Status_eqb_spec (Booking.status booking) pending) as [|Hne];
      [assumption|].
    rewrite (create_payment_intent_not_pending _ _ _ Hne) in Hrun. discriminate.
  - apply create_payment_intent_not_pending.
  - intros H.
    destruct (create_payment_intent_pending stripe booking db H)
      as [db' [Hrun Hsave]].
    destruct (Booking_save_spec (stored stripe) db)
      as [db1 [Hsave1 [Hget _]]].
    unfold stored, request in Hsave1. rewrite Hsave in Hsave1.
    inversion Hsave1. subst db1.
    exists db'. split; [exact Hrun|]. split; [exact H|].
    split; [exact Hget|]. intros stripe2.
    destruct (create_payment_intent_pending stripe2 (stored stripe) db' H)
      as [db'' [Hrun2 Hsave2]].
    destruct (Booking_save_spec (stored stripe2) db')
      as [db2 [Hsave2' [Hget2 _]]].
    change (Booking_save (stored stripe2) db' = (Ok tt, db'')) in Hsave2.
    rewrite Hsave2 in Hsave2'. inversion Hsave2'. subst db2.
    exists db''. split; [exact Hrun2|exact Hget2].
Qed.

Lemma create_payment_intent_iff_pending_witness :
  (exists db',
     PaymentService.create_payment_intent (gateway_answering "pi_1" "secret_1")
       (booked 1 (jan 1 0) (jan 3 0) pending None)
       (db_one available true pending None)
     = (Ok (mkPaymentData "secret_1" "pi_1",
            booked 1 (jan 1 0) (jan 3 0) pending (Some "pi_1")), db')
     /\ exists db'',
          PaymentService.create_payment_intent
            (gateway_answering "pi_2" "secret_2")
            (booked 1 (jan 1 0) (jan 3 0) pending (Some "pi_1")) db'
          = (Ok (mkPaymentData "secret_2" "pi_2",
                 booked 1 (jan 1 0) (jan 3 0) pending (Some "pi_2")), db'')
          /\ Booking_objects_get 1 db''
             = (Ok (Some (booked 1 (jan 1 0) (jan 3 0) pending (Some "pi_2"))),
                db''))
  /\ PaymentService.create_payment_intent (gateway_answering "pi_1" "secret_1")
       (booked 1 (jan 1 0) (jan 3 0) confirmed None)
       (db_one rented true confirmed None)
     = (Raise (ValueError not_pending_message), db_one rented true confirmed None).
Proof.
  split.
  - destruct (create_payment_intent_iff_pending
                (gateway_answering "pi_1" "secret_1")
                (booked 1 (jan 1 0) (jan 3 0) pending None)
                (db_one available true pending None)) as [_ [_ H]].
    destruct (H eq_refl) as [db' [Hrun [_ [_ Hagain]]]].
    exists db'. split; [exact Hrun|].
    destruct (Hagain (gateway_answering "pi_2" "secret_2")) as [db'' [Hrun2 Hget2]].
    exists db''. split; [exact Hrun2|exact Hget2].
  - destruct (create_payment_intent_iff_pending
                (gateway_answering "pi_1" "secret_1")
                (booked 1 (jan 1 0) (jan 3 0) confirmed None)
                (db_one rented true confirmed None)) as [_ [H _]].
    apply H. discriminate.
Defined.

(** ** Payment webhooks *)


Section WebhookFacts.

Variable to_python : string -> option Z.

Lemma booking_get_id pk db b :
  Booking_objects_get pk db = (Ok (Some b), db) -> Booking.id b = pk.
Proof.
  unfold Booking_objects_get. intros H. inversion H as [Hf].
  apply find_some in Hf. destruct Hf as [_ Hf]. now apply Z.eqb_eq in Hf.
Qed.

Lemma nonempty_eqb s : s <> EmptyString -> String.eqb s EmptyString = false.
Proof. intros H. destruct s; [contradiction|reflexivity]. Qed.

(** A success event naming an existing booking saves it as confirmed,
    whatever its status and its stored reference were. *)
Lemma handle_payment_success_found db pi md s pk b :
  dict_get md "booking_id" = Some s -> s <> EmptyString ->
  to_python s = Some pk ->
  Booking_objects_get pk db = (Ok (Some b), db) ->
  exists db',
    PaymentService._handle_payment_success to_python (mkPI pi md) db = (Ok tt, db')
    /\ Booking_save (Booking.with_status b confirmed) db = (Ok tt, db')
    /\ Booking_objects_get pk db'
       = (Ok (Some (Booking.with_status b confirmed)), db').
Proof.
  intros Hmd Hs Hpk Hget. pose proof (booking_get_id _ _ _ Hget) as Hid.
  unfold PaymentService._handle_payment_success. simpl. rewrite Hmd.
  rewrite (nonempty_eqb _ Hs), Hpk. unfold bind. rewrite Hget.
  destruct (Booking_save_spec (Booking.with_status b confirmed) db)
    as [db' [Hsave [Hget' _]]].
  exists db'. simpl in Hget'. rewrite Hid in Hget'. auto.
Qed.


Lemma handle_payment_success_no_booking_id db pi md :
  dict_get md "booking_id" = None ->
  PaymentService._handle_payment_success to_python (mkPI pi md) db = (Ok tt, db).
Proof.
  intros Hmd. unfold PaymentService._handle_payment_success. simpl.
  now rewrite Hmd.
Qed.

(** A pending booking is confirmed by the first delivery; the second
    delivery of the same event raises nothing and leaves it confirmed. *)
Lemma handle_payment_success_twice db pi md s pk b :
  dict_get md "booking_id" = Some s -> s <> EmptyString ->
  to_python s = Some pk ->
  Booking_objects_get pk db = (Ok (Some b), db) ->
  Booking.status b = pending ->
  exists db1 db2,
    PaymentService._handle_payment_success to_python (mkPI pi md) db = (Ok tt, db1)
    /\ Booking_objects_get pk db1
       = (Ok (Some (Booking.with_status b confirmed)), db1)
    /\ PaymentService._handle_payment_success to_python (mkPI pi md) db1
       = (Ok tt, db2)
    /\ Booking_objects_get pk db2
       = (Ok (Some (Booking.with_status b confirmed)), db2).
Proof.
  intros Hmd Hs Hpk Hget _.
  destruct (handle_payment_success_found db pi md s pk b Hmd Hs Hpk Hget)
    as [db1 [Hrun1 [_ Hget1]]].
  destruct (handle_payment_success_found db1 pi md s pk _ Hmd Hs Hpk Hget1)
    as [db2 [Hrun2 [_ Hget2]]].
  exists db1, db2. auto.
Qed.


End WebhookFacts.



(** C2. The success handler has no check of the booking's status: a
    success event for a cancelled booking is not a no-op, the booking
    becomes confirmed. *)
Theorem payment_success_confirms_cancelled_booking :
  PaymentService.handle_webhook_event decimal_pk
    (succeeded_event "pi_1" [("booking_id", "1")])
    (db_one available true cancelled (Some "pi_1"))
  = (Ok tt, db_one available true confirmed (Some "pi_1"))
  /\ db_one available true confirmed (Some "pi_1")
     <> db_one available true cancelled (Some "pi_1").
Proof. split; [vm_compute; reflexivity|discriminate]. Qed.

(** [cancel_booking] and [create_payment_intent] leave a booking in a
    terminal status as it is. *)
Lemma terminal_kept_by_cancel_and_intent stripe booking db :
  Booking.status booking = cancelled \/ Booking.status booking = refunded
  \/ Booking.status booking = completed ->
  BookingService.cancel_booking booking db = (Raise (ValueError cancel_message), db)
  /\ PaymentService.create_payment_intent stripe booking db
     = (Raise (ValueError not_pending_message), db).
Proof.
  intros H. split.
  - apply cancel_booking_inactive.
    intros [E|E]; rewrite E in H; destruct H as [H|[H|H]]; discriminate.
  - apply create_payment_intent_not_pending.
    intros E; rewrite E in H; destruct H as [H|[H|H]]; discriminate.
Qed.

(** C3. The three terminal statuses are left again by the webhook: a
    success event for a cancelled, a refunded or a completed booking makes
    it confirmed. *)
Theorem payment_success_leaves_terminal_status :
  PaymentService.handle_webhook_event decimal_pk
    (succeeded_event "pi_1" [("booking_id", "1")])
    (db_one available true completed (Some "pi_1"))
  = (Ok tt, db_one available true confirmed (Some "pi_1"))
  /\ PaymentService.handle_webhook_event decimal_pk
       (succeeded_event "pi_1" [("booking_id", "1")])
       (db_one available true refunded (Some "pi_1"))
     = (Ok tt, db_one available true confirmed (Some "pi_1"))
  /\ PaymentService.handle_webhook_event decimal_pk
       (succeeded_event "pi_1" [("booking_id", "1")])
       (db_one available true cancelled None)
     = (Ok tt, db_one available true confirmed None).
Proof. repeat split; vm_compute; reflexivity. Qed.

(** ** The car's derived status *)

Lemma active_bookings_exist_spec car now_lte now_gte db :
  exists active,
    CarService.active_bookings_exist car now_lte now_gte db = (Ok active, db)
    /\ (active = true <->
        exists b, In b (bookings db) /\ covers_now car now_lte now_gte b).
Proof.
  unfold CarService.active_bookings_exist. eexists. split; [reflexivity|].
  rewrite existsb_exists. unfold covers_now.
  split; intros [b [Hin H]]; exists b; (split; [exact Hin|]).
  - repeat rewrite andb_true_iff in H. destruct H as [[[Hc Hs] Hl] Hg].
    apply Z.eqb_eq in Hc. apply status_in_active in Hs.
    apply Z.leb_le in Hl. apply Z.geb_le in Hg. auto.
  - destruct H as [Hc [Hs [Hl Hg]]]. repeat rewrite andb_true_iff.
    repeat split; [now apply Z.eqb_eq|now apply status_in_active
                  |now apply Z.leb_le|now apply Z.geb_le].
Qed.

Lemma same_but_saved car s now :
  same_but_status_and_updated_at car
    (Car.with_updated_at (Car.with_status car s) now).
Proof. destruct car. reflexivity. Qed.

Lemma same_but_refl car : same_but_status_and_updated_at car car.
Proof. destruct car. reflexivity. Qed.

(** C7, amended.  For a transition to [confirmed] the car is saved as
    [rented]; for a transition to [cancelled] or [completed] it is saved as
    [available] only if no pending or confirmed booking of the car covers
    the present moment (a booking that has itself made that transition is
    not among them), and otherwise neither the instance nor the database
    changes; for any other status nothing changes.  A save also sets the
    car's [updated_at] to the time of the save; every other field of the
    car, every other car and every booking is as before. *)
Theorem update_car_status_after_booking_effect
    now_lte now_gte now_save car booking_status db :
  let active :=
    exists b, In b (bookings db) /\ covers_now car now_lte now_gte b in
  let saved (s : CarStatus) :=
    Car.with_updated_at (Car.with_status car s) now_save in
  let run :=
    CarService.update_car_status_after_booking now_lte now_gte now_save
      car booking_status db in
  (booking_status = confirmed ->
   exists db', run = (Ok (saved rented), db')
     /\ Car_objects_get (Car.id car) db' = (Ok (Some (saved rented)), db'))
  /\ (booking_status = cancelled \/ booking_status = completed -> ~ active ->
      exists db', run = (Ok (saved available), db')
        /\ Car_objects_get (Car.id car) db' = (Ok (Some (saved available)), db'))
  /\ (booking_status = cancelled \/ booking_status = completed -> active ->
      run = (Ok car, db))
  /\ (booking_status = pending \/ booking_status = refunded ->
      run = (Ok car, db))
  /\ (exists car' db',
        run = (Ok car', db')
        /\ same_but_status_and_updated_at car car'
        /\ bookings db' = bookings db
        /\ forall k, k <> Car.id car ->
             fst (Car_objects_get k db') = fst (Car_objects_get k db))
  /\ (forall b0,
        booking_status = cancelled \/ booking_status = completed ->
        Booking.status b0 = booking_status ->
        (active <->
         exists b, b <> b0 /\ In b (bookings db)
                   /\ covers_now car now_lte now_gte b)).
Proof.
  intros active saved run.
  assert (Hsave : forall s,
    exists db', Car_save now_save (Car.with_status car s) db = (Ok (saved s), db')
      /\ Car_objects_get (Car.id car) db' = (Ok (Some (saved s)), db')
      /\ bookings db' = bookings db
      /\ forall k, k <> Car.id car ->
           fst (Car_objects_get k db') = fst (Car_objects_get k db)).
  { intros s. destruct (Car_save_spec now_save (Car.with_status car s) db)
      as [db' [H1 [H2 [H3 [_ H4]]]]]. exists db'. auto. }
  destruct (active_bookings_exist_spec car now_lte now_gte db)
    as [act [Hact Hiff]].
  assert (Hterm : booking_status = cancelled \/ booking_status = completed ->
                  run = if act then (Ok car, db)
                        else Car_save now_save (Car.with_status car available) db).
  { intros [E|E]; subst run; rewrite E;
      unfold CarService.update_car_status_after_booking; simpl;
      unfold bind; rewrite Hact; destruct act; reflexivity. }
  repeat split.
  - intros E. destruct (Hsave rented) as [db' [H1 [H2 _]]].
    exists db'. subst run. rewrite E. auto.
  - intros E Hna. rewrite (Hterm E).
    destruct act; [exfalso; now apply Hna, Hiff|].
    destruct (Hsave available) as [db' [H1 [H2 _]]]. exists db'. auto.
  - intros E Ha. rewrite (Hterm E). apply Hiff in Ha. now rewrite Ha.
  - intros [E|E]; subst run; rewrite E; reflexivity.
  - assert (Hsame : exists car' db', (Ok car, db) = (Ok car', db')
        /\ same_but_status_and_updated_at car car'
        /\ bookings db' = bookings db
        /\ forall k, k <> Car.id car ->
             fst (Car_objects_get k db') = fst (Car_objects_get k db)).
    { exists car, db. split; [reflexivity|]. split; [apply same_but_refl|].
      split; reflexivity. }
    assert (Hsaved : forall s, exists car' db',
        Car_save now_save (Car.with_status car s) db = (Ok car', db')
        /\ same_but_status_and_updated_at car car'
        /\ bookings db' = bookings db
        /\ forall k, k <> Car.id car ->
             fst (Car_objects_get k db') = fst (Car_objects_get k db)).
    { intros s. destruct (Hsave s) as [db' [H1 [_ [H3 H4]]]].
      exists (saved s), db'. split; [exact H1|].
      split; [apply same_but_saved|]. split; assumption. }
    destruct booking_status.
    + exact Hsame.
    + exact (Hsaved rented).
    + rewrite (Hterm (or_introl eq_refl)).
      destruct act; [exact Hsame|exact (Hsaved available)].
    + exact Hsame.
    + rewrite (Hterm (or_intror eq_refl)).
      destruct act; [exact Hsame|exact (Hsaved available)].
  - intros [b [Hin Hc]]. exists b. split; [|split; assumption].
    intros ->. destruct Hc as [_ [Hs _]].
    rewrite H0 in Hs. destruct H as [E|E]; rewrite E in Hs;
      destruct Hs; discriminate.
  - intros [b [_ [Hin Hc]]]. exists b. auto.
Qed.

Lemma update_car_status_after_booking_effect_witness :
  (* a transition to confirmed rents the car out *)
  (exists db',
     CarService.update_car_status_after_booking (jan 2 9) (jan 2 9) (jan 2 9)
       (corolla available true) confirmed (db_one available true confirmed None)
     = (Ok (Car.with_updated_at (corolla rented true) (jan 2 9)), db'))
  (* a cancellation while another booking is running changes nothing *)
  /\ CarService.update_car_status_after_booking (jan 2 9) (jan 2 9) (jan 2 9)
       (corolla rented true) cancelled (db_one rented true confirmed None)
     = (Ok (corolla rented true), db_one rented true confirmed None)
  (* a cancellation with no booking running frees the car *)
  /\ (exists db',
     CarService.update_car_status_after_booking (jan 2 9) (jan 2 9) (jan 2 9)
       (corolla rented true) cancelled (db_one rented true cancelled None)
     = (Ok (Car.with_updated_at (corolla available true) (jan 2 9)), db')).
Proof.
  split; [|split].
  - destruct (update_car_status_after_booking_effect (jan 2 9) (jan 2 9) (jan 2 9)
                (corolla available true) confirmed
                (db_one available true confirmed None)) as [H _].
    destruct (H eq_refl) as [db' [Hrun _]]. exists db'. exact Hrun.
  - destruct (update_car_status_after_booking_effect (jan 2 9) (jan 2 9) (jan 2 9)
                (corolla rented true) cancelled
                (db_one rented true confirmed None)) as [_ [_ [H _]]].
    apply H; [left; reflexivity|].
    exists (booked 1 (jan 1 0) (jan 3 0) confirmed None).
    split; [left; reflexivity|].
    repeat split; [right; reflexivity|vm_compute; discriminate
                  |vm_compute; discriminate].
  - destruct (update_car_status_after_booking_effect (jan 2 9) (jan 2 9) (jan 2 9)
                (corolla rented true) cancelled
                (db_one rented true cancelled None)) as [_ [H _]].
    destruct H as [db' [Hrun _]]; [left; reflexivity| |exists db'; exact Hrun].
    intros [b [[<-|[]] [_ [[E|E] _]]]]; discriminate E.
Defined.

(** C7 as stated fails: the save that records the new status also rewrites
    [updated_at], so a field other than [status] is modified. *)
Lemma update_car_status_modifies_updated_at :
  exists car' db',
    CarService.update_car_status_after_booking (jan 2 9) (jan 2 9) (jan 2 9)
      (corolla available true) confirmed (db_one available true confirmed None)
    = (Ok car', db')
    /\ Car.updated_at (corolla available true) = jan 1 0
    /\ Car.updated_at car' = jan 2 9
    /\ ~ same_but_status (corolla available true) car'.
Proof.
  do 2 eexists. split; [vm_compute; reflexivity|].
  split; [reflexivity|]. split; [vm_compute; reflexivity|].
  unfold same_but_status. vm_compute. discriminate.
Qed.

(** ** Lookups after the flags of a car or the booking rows changed *)

Lemma find_car_flagged s a car_id k rows :
  find (fun c => Car.id c =? k)
       (map (fun c => if Car.id c =? car_id
                      then Car.with_is_active (Car.with_status c s) a
                      else c) rows)
  = option_map (fun c => if Car.id c =? car_id
                         then Car.with_is_active (Car.with_status c s) a
                         else c)
               (find (fun c => Car.id c =? k) rows).
Proof.
  induction rows as [|r rows IH]; simpl; [reflexivity|].
  destruct (Car.id r =? car_id) eqn:E; simpl;
    (destruct (Car.id r =? k); [simpl; now rewrite E|exact IH]).
Qed.

Lemma car_exists_same_cars db car_id car rows n :
  car_exists db car_id car -> car_exists (mkDB (cars db) rows n) car_id car.
Proof.
  unfold car_exists, Car_objects_get. cbn [cars]. intros H.
  inversion H as [Hf]. now rewrite Hf.
Qed.

Lemma conflict_after_insert cs rows n k u s e price now s' e' :
  ~ (e <= s' \/ s >= e') ->
  conflict (mkDB cs (rows ++ [Booking.mk n u k s e price pending None now]) (n + 1))
           k s' e'.
Proof.
  intros H. eexists. split; [apply in_or_app; right; left; reflexivity|].
  split; [reflexivity|]. split; [left; reflexivity|exact H].
Qed.

(** * Further properties *)

(** ** The rows after a save *)

Lemma car_exists_cars_eq db db' car_id car :
  cars db' = cars db -> car_exists db car_id car -> car_exists db' car_id car.
Proof.
  unfold car_exists, Car_objects_get. intros Hc H. inversion H as [Hf].
  rewrite Hc. now rewrite Hf.
Qed.

(** The rows after [b.save()]: [b] itself, and the rows of the other keys. *)
Lemma Booking_save_rows b db db' :
  Booking_save b db = (Ok tt, db') ->
  In b (bookings db')
  /\ (forall r, In r (bookings db') ->
        r = b \/ (In r (bookings db) /\ Booking.id r <> Booking.id b))
  /\ (forall r, In r (bookings db) -> Booking.id r <> Booking.id b ->
        In r (bookings db'))
  /\ cars db' = cars db.
Proof.
  unfold Booking_save. intros H. inversion H as [Hdb]. clear H Hdb.
  cbn [bookings cars].
  destruct (existsb (fun r => Booking.id r =? Booking.id b) (bookings db)) eqn:E.
  - repeat split.
    + apply existsb_exists in E. destruct E as [r [Hin Hr]].
      apply in_map_iff. exists r. split; [now rewrite Hr|exact Hin].
    + intros r Hr. apply in_map_iff in Hr. destruct Hr as [x [Hx Hin]].
      destruct (Z.eqb_spec (Booking.id x) (Booking.id b)) as [|Hne];
        [now left|right; subst r; auto].
    + intros r Hin Hne. apply in_map_iff. exists r. split; [|exact Hin].
      destruct (Z.eqb_spec (Booking.id r) (Booking.id b)); [contradiction|reflexivity].
  - repeat split.
    + apply in_or_app. right. left. reflexivity.
    + intros r Hr. apply in_app_or in Hr. destruct Hr as [Hin|[<-|[]]];
        [right|now left]. split; [exact Hin|].
      intros Heq. rewrite <- not_true_iff_false in E. apply E.
      apply existsb_exists. exists r. split; [exact Hin|now apply Z.eqb_eq].
    + intros r Hin _. apply in_or_app. now left.
Qed.

(** ** No double booking *)

Lemma not_conflict_disjoint db k start end_ r :
  ~ conflict db k start end_ -> In r (bookings db) -> Booking.car r = k ->
  active r ->
  Booking.end_ r <= start \/ Booking.start r >= end_.
Proof.
  intros Hfree Hin Hcar Hact.
  destruct (Z_le_gt_dec (Booking.end_ r) start) as [|Hgt]; [now left|].
  destruct (Z_le_gt_dec end_ (Booking.start r)) as [|Hgt']; [right; lia|].
  exfalso. apply Hfree. exists r. split; [exact Hin|].
  split; [exact Hcar|]. split; [exact Hact|]. lia.
Qed.

Lemma no_double_booking_after_create now user car_id start end_ db r db' :
  no_double_booking db ->
  BookingService.create_booking now user car_id start end_ db = (r, db') ->
  no_double_booking db'.
Proof.
  intros Hinv Hrun.
  destruct (find (fun c => Car.id c =? car_id) (cars db)) as [car|] eqn:Hfind.
  - assert (Hcar : car_exists db car_id car)
      by (unfold car_exists, Car_objects_get; now rewrite Hfind).
    destruct (is_car_available_spec db car start end_) as [free [Havail Hiff]].
    rewrite (car_exists_id _ _ _ Hcar) in Hiff.
    destruct free.
    + assert (Hfree : ~ conflict db car_id start end_) by now apply Hiff.
      rewrite (create_booking_free _ _ _ _ _ _ _ Hcar Hfree) in Hrun.
      inversion Hrun. subst r db'. clear Hrun.
      intros b1 b2 H1 H2 Hne Hc A1 A2. cbn [bookings] in H1, H2.
      apply in_app_or in H1. apply in_app_or in H2.
      destruct H1 as [H1|[<-|[]]], H2 as [H2|[<-|[]]].
      * now apply Hinv.
      * cbn [Booking.car Booking.start Booking.end_] in *.
        now apply (not_conflict_disjoint db car_id).
      * cbn [Booking.car Booking.start Booking.end_] in *.
        destruct (not_conflict_disjoint db car_id start end_ b2 Hfree H2
                    (eq_sym Hc) A2); lia.
      * now contradiction Hne.
    + unfold BookingService.create_booking, bind in Hrun.
      rewrite Hcar, Havail in Hrun. simpl in Hrun. inversion Hrun. now subst.
  - unfold BookingService.create_booking, bind, Car_objects_get in Hrun.
    rewrite Hfind in Hrun. inversion Hrun. now subst.
Qed.

Lemma no_double_booking_after_cancel booking db r db' :
  no_double_booking db ->
  BookingService.cancel_booking booking db = (r, db') ->
  no_double_booking db'.
Proof.
  intros Hinv Hrun.
  destruct (status_in (Booking.status booking) [pending; confirmed]) eqn:E.
  - apply status_in_active in E.
    destruct (cancel_booking_active booking db E) as [db1 [Hrun1 Hsave]].
    rewrite Hrun in Hrun1. inversion Hrun1. subst r db1. clear Hrun1.
    destruct (Booking_save_rows _ _ _ Hsave) as [_ [Hrows _]].
    intros b1 b2 H1 H2 Hne Hc A1 A2.
    destruct (Hrows b1 H1) as [->|[H1' _]];
      [destruct A1 as [A|A]; discriminate A|].
    destruct (Hrows b2 H2) as [->|[H2' _]];
      [destruct A2 as [A|A]; discriminate A|].
    now apply Hinv.
  - unfold BookingService.cancel_booking in Hrun. rewrite E in Hrun.
    inversion Hrun. now subst.
Qed.

Lemma no_double_booking_after_intent stripe booking db r db' :
  no_double_booking db -> In booking (bookings db) ->
  PaymentService.create_payment_intent stripe booking db = (r, db') ->
  no_double_booking db'.
Proof.
  intros Hinv Hin Hrun.
  destruct (Status_eqb_spec (Booking.status booking) pending) as [E|E].
  - destruct (create_payment_intent_pending stripe booking db E)
      as [db1 [Hrun1 Hsave]].
    cbv zeta in Hrun1, Hsave.
    rewrite Hrun in Hrun1. inversion Hrun1. subst r db1. clear Hrun1.
    destruct (Booking_save_rows _ _ _ Hsave) as [_ [Hrows _]].
    intros b1 b2 H1 H2 Hne Hc A1 A2.
    destruct (Hrows b1 H1) as [->|[H1' N1]];
      destruct (Hrows b2 H2) as [->|[H2' N2]].
    + now contradiction Hne.
    + apply (Hinv booking b2 Hin H2' Hne Hc A1 A2).
    + apply (Hinv b1 booking H1' Hin Hne Hc A1 A2).
    + now apply Hinv.
  - rewrite (create_payment_intent_not_pending _ _ _ E) in Hrun.
    inversion Hrun. now subst.
Qed.

(** X3. Served one after the other, [create_booking], [cancel_booking] and
    [create_payment_intent] (for a booking read from the table) keep the
    table free of double bookings: no two pending or confirmed bookings of
    one car overlap, whatever the outcome of the call. *)
Theorem no_double_booking_preserved db :
  no_double_booking db ->
  (forall now user car_id start end_ r db',
     BookingService.create_booking now user car_id start end_ db = (r, db') ->
     no_double_booking db')
  /\ (forall booking r db',
        BookingService.cancel_booking booking db = (r, db') ->
        no_double_booking db')
  /\ (forall stripe booking r db',
        In booking (bookings db) ->
        PaymentService.create_payment_intent stripe booking db = (r, db') ->
        no_double_booking db').
Proof.
  intros Hinv. split; [|split].
  - intros. eapply no_double_booking_after_create; eassumption.
  - intros. eapply no_double_booking_after_cancel; eassumption.
  - intros. eapply no_double_booking_after_intent; eassumption.
Qed.

Lemma no_double_booking_preserved_witness :
  no_double_booking (db_one rented true confirmed None)
  /\ exists b db1,
       BookingService.create_booking (jan 1 9) 3 7 (jan 3 0) (jan 5 0)
         (db_one rented true confirmed None) = (Ok b, db1)
       /\ no_double_booking db1.
Proof.
  assert (Hinv : no_double_booking (db_one rented true confirmed None)).
  { intros b1 b2 [<-|[]] [<-|[]] Hne. now contradiction Hne. }
  split; [exact Hinv|].
  destruct (BookingService.create_booking (jan 1 9) 3 7 (jan 3 0) (jan 5 0)
              (db_one rented true confirmed None)) as [[b|e] db1] eqn:Hrun;
    [|vm_compute in Hrun; discriminate Hrun].
  exists b, db1. split; [reflexivity|].
  exact (proj1 (no_double_booking_preserved _ Hinv) _ _ _ _ _ _ _ Hrun).
Defined.



(** ** What the webhook leaves alone *)

(** X5. Whatever event is handled, a booking keeps its key, user, car,
    range, total price, stored payment reference and creation time: only
    its status can differ afterwards; the cars and the key sequence are
    untouched. *)
Theorem webhook_changes_status_only
    (to_python : string -> option Z) event db pk b :
  Booking_objects_get pk db = (Ok (Some b), db) ->
  let db' := snd (PaymentService.handle_webhook_event to_python event db) in
  exists b',
    Booking_objects_get pk db' = (Ok (Some b'), db')
    /\ same_but_booking_status b b'
    /\ cars db' = cars db
    /\ next_booking_id db' = next_booking_id db.
Proof.
  intros Hget db'.
  assert (Hsame : forall x, same_but_booking_status x x)
    by (intros []; reflexivity).
  assert (Hkeep : exists b',
            Booking_objects_get pk db = (Ok (Some b'), db)
            /\ same_but_booking_status b b'
            /\ cars db = cars db
            /\ next_booking_id db = next_booking_id db).
  { exists b. auto. }
  subst db'. unfold PaymentService.handle_webhook_event.
  destruct (String.eqb (ev_type event) "payment_intent.succeeded");
    [|exact Hkeep].
  unfold PaymentService._handle_payment_success.
  destruct (dict_get (pi_metadata (ev_data_object event)) "booking_id")
    as [s|]; [|exact Hkeep].
  destruct (String.eqb s EmptyString); [exact Hkeep|].
  destruct (to_python s) as [k|]; [|exact Hkeep].
  unfold bind.
  destruct (find (fun r => Booking.id r =? k) (bookings db)) as [target|] eqn:Hf.
  - assert (Hgetk : Booking_objects_get k db = (Ok (Some target), db))
      by (unfold Booking_objects_get; now rewrite Hf).
    rewrite Hgetk.
    pose proof (booking_get_id _ _ _ Hgetk) as Hid.
    destruct (Booking_save_spec (Booking.with_status target confirmed) db)
      as [db1 [Hsave [Hget1 [Hcars [Hnext Hother]]]]].
    rewrite Hsave. cbn [snd]. cbn [Booking.with_status Booking.id] in Hget1, Hother.
    destruct (Z.eq_dec pk k) as [->|Hne].
    + rewrite Hgetk in Hget. inversion Hget. subst target.
      exists (Booking.with_status b confirmed). rewrite Hid in Hget1.
      split; [exact Hget1|]. split; [destruct b; reflexivity|]. auto.
    + exists b. split.
      * assert (Hfst : fst (Booking_objects_get pk db1)
                       = fst (Booking_objects_get pk db))
          by (apply Hother; congruence).
        rewrite Hget in Hfst. unfold Booking_objects_get in *.
        cbn [fst] in Hfst. now inversion Hfst.
      * auto.
  - assert (Hgetk : Booking_objects_get k db = (Ok None, db))
      by (unfold Booking_objects_get; now rewrite Hf).
    rewrite Hgetk. exact Hkeep.
Qed.

Lemma webhook_changes_status_only_witness :
  exists b',
    Booking_objects_get 1
      (snd (PaymentService.handle_webhook_event decimal_pk
              (succeeded_event "pi_1" [("booking_id", "1")])
              (db_one available true pending (Some "pi_1"))))
    = (Ok (Some b'),
       snd (PaymentService.handle_webhook_event decimal_pk
              (succeeded_event "pi_1" [("booking_id", "1")])
              (db_one available true pending (Some "pi_1"))))
    /\ same_but_booking_status
         (booked 1 (jan 1 0) (jan 3 0) pending (Some "pi_1")) b'.
Proof.
  destruct (webhook_changes_status_only decimal_pk
              (succeeded_event "pi_1" [("booking_id", "1")])
              (db_one available true pending (Some "pi_1")) 1
              (booked 1 (jan 1 0) (jan 3 0) pending (Some "pi_1")) eq_refl)
    as [b' [Hget [Hsame _]]].
  exists b'. split; [exact Hget|exact Hsame].
Defined.

(** ** What the gateway is asked and what comes back *)

Lemma amount_in_cents c :
  Z.abs c < 10 ^ 26 ->
  PyDecimal.to_int (PyDecimal.mul (PyDecimal.mk c (-2)) (PyDecimal.of_int 100)) = c.
Proof.
  intros H. unfold PyDecimal.mul, PyDecimal.of_int.
  cbn [PyDecimal.coef PyDecimal.exp].
  rewrite fix_small.
  - unfold PyDecimal.to_int. cbn [PyDecimal.coef PyDecimal.exp].
    change (0 <=? -2 + 0) with false. cbv iota.
    change (10 ^ (- (-2 + 0))) with 100. apply Z.quot_mul. discriminate.
  - cbn [PyDecimal.coef]. rewrite Z.abs_mul.
    change (Z.abs 100) with 100.
    change (10 ^ PyDecimal.prec) with (10 ^ 26 * 100). lia.
Qed.

(** X6. For a pending booking whose total has two decimal places,
    [create_payment_intent] asks the gateway for exactly the total in cents,
    in ["usd"], with the booking's key as the [booking_id] of the metadata;
    the secret and the id it returns and stores are those of that answer. *)
Theorem payment_amount_is_total_in_cents stripe booking db c :
  Booking.status booking = pending ->
  Booking.total_price booking = PyDecimal.mk c (-2) ->
  Z.abs c < 10 ^ 26 ->
  let intent := stripe c "usd" [("booking_id", str (Booking.id booking))] in
  exists db',
    PaymentService.create_payment_intent stripe booking db
    = (Ok (mkPaymentData (intent_client_secret intent) (intent_id intent),
           Booking.with_stripe_payment_intent booking (Some (intent_id intent))),
       db').
Proof.
  intros Hs Hp Hc intent.
  destruct (create_payment_intent_pending stripe booking db Hs) as [db' [Hrun _]].
  cbv zeta in Hrun. rewrite Hp, (amount_in_cents c Hc) in Hrun.
  exists db'. exact Hrun.
Qed.

Lemma payment_amount_is_total_in_cents_witness :
  exists db',
    PaymentService.create_payment_intent
      (fun amount currency _ =>
         mkIntent (String.append "pi_" currency) (str amount))
      (booked 1 (jan 1 0) (jan 3 0) pending None)
      (db_one available true pending None)
    = (Ok (mkPaymentData "10000" "pi_usd",
           booked 1 (jan 1 0) (jan 3 0) pending (Some "pi_usd")), db').
Proof.
  destruct (payment_amount_is_total_in_cents
              (fun amount currency _ =>
                 mkIntent (String.append "pi_" currency) (str amount))
              (booked 1 (jan 1 0) (jan 3 0) pending None)
              (db_one available true pending None) 10000
              eq_refl eq_refl ltac:(vm_compute; reflexivity)) as [db' Hrun].
  exists db'. exact Hrun.
Defined.




(** ** The exclusion of [get_available_cars] is the conflict rule *)

Lemma in_cars_exists db c :
  In c (cars db) -> exists c', car_exists db (Car.id c) c'.
Proof.
  intros Hin. unfold car_exists, Car_objects_get.
  destruct (find (fun x => Car.id x =? Car.id c) (cars db)) as [c'|] eqn:Hf.
  - now exists c'.
  - exfalso. apply (find_none _ _ Hf) in Hin. now rewrite Z.eqb_refl in Hin.
Qed.

(** The exclusion of [get_available_cars] is the conflict rule of
    [create_booking]. *)
Lemma excluded_iff_conflict db k start end_ :
  existsb (Z.eqb k)
    (map Booking.car
       (filter (fun b => status_in (Booking.status b) [pending; confirmed]
                         && (Booking.start b <? end_)
                         && (Booking.end_ b >? start))
               (bookings db))) = true
  <-> conflict db k start end_.
Proof.
  rewrite existsb_exists. split.
  - intros [x [Hx Hk]]. apply Z.eqb_eq in Hk. subst x.
    apply in_map_iff in Hx. destruct Hx as [b [Hc Hb]].
    apply filter_In in Hb. destruct Hb as [Hin Hb].
    repeat rewrite andb_true_iff in Hb. destruct Hb as [[Hs Hlt] Hgt].
    apply status_in_active in Hs. apply Z.ltb_lt in Hlt.
    apply Z.gtb_lt in Hgt.
    exists b. split; [exact Hin|]. split; [exact Hc|]. split; [exact Hs|]. lia.
  - intros [b [Hin [Hc [Hs Ho]]]]. exists k. split; [|apply Z.eqb_refl].
    apply in_map_iff. exists b. split; [exact Hc|].
    apply filter_In. split; [exact Hin|].
    repeat rewrite andb_true_iff. split; [split|].
    + now apply status_in_active.
    + apply Z.ltb_lt. lia.
    + apply Z.gtb_lt. lia.
Qed.

(** ** The current booking of a car *)




(** ** Car images *)

Lemma Model_save_rows now self tb :
  let self' := fst (CarImage.Model_save now self tb) in
  let tb' := snd (CarImage.Model_save now self tb) in
  In self' (CarImage.rows tb')
  /\ CarImage.car self' = CarImage.car self
  /\ CarImage.is_primary self' = CarImage.is_primary self
  /\ (forall r, In r (CarImage.rows tb') -> r = self' \/ In r (CarImage.rows tb))
  /\ (forall r, In r (CarImage.rows tb) -> CarImage.pk r <> CarImage.pk self' ->
        In r (CarImage.rows tb')).
Proof.
  unfold CarImage.Model_save. destruct (CarImage.pk self) as [k|] eqn:Hpk.
  - destruct (existsb (CarImage.pk_is k) (CarImage.rows tb)) eqn:E;
      cbn [fst snd CarImage.rows].
    + repeat split.
      * apply existsb_exists in E. destruct E as [r [Hin Hr]].
        apply in_map_iff. exists r. split; [now rewrite Hr|exact Hin].
      * intros r Hr. apply in_map_iff in Hr. destruct Hr as [x [Hx Hin]].
        destruct (CarImage.pk_is k x); [now left|right; now subst r].
      * intros r Hin Hne. apply in_map_iff. exists r. split; [|exact Hin].
        unfold CarImage.pk_is. destruct (CarImage.pk r) as [k'|] eqn:Hr;
          [|reflexivity].
        destruct (Z.eqb_spec k' k); [|reflexivity]. subst k'.
        exfalso. apply Hne. now rewrite Hpk.
    + repeat split.
      * apply in_or_app. right. now left.
      * intros r Hr. apply in_app_or in Hr.
        destruct Hr as [Hr|[<-|[]]]; [now right|now left].
      * intros r Hin _. apply in_or_app. now left.
  - cbn [fst snd CarImage.rows]. repeat split.
    + apply in_or_app. right. now left.
    + intros r Hr. apply in_app_or in Hr.
      destruct Hr as [Hr|[<-|[]]]; [now right|now left].
    + intros r Hin _. apply in_or_app. now left.
Qed.

(** X10. [CarImage.save] keeps one primary image per car.  After a
    primary image is saved it is the only primary image of its car; in
    every case the saved image is in the table, a table in which no car has
    two primary images stays so, and the images of other cars are as
    before. *)
Theorem car_image_save_single_primary now self tb :
  let self' := fst (CarImage.save now self tb) in
  let tb' := snd (CarImage.save now self tb) in
  In self' (CarImage.rows tb')
  /\ (CarImage.is_primary self = true ->
      forall r, In r (CarImage.rows tb') ->
        CarImage.car r = CarImage.car self -> CarImage.is_primary r = true ->
        r = self')
  /\ (CarImage.single_primary tb -> CarImage.single_primary tb')
  /\ (forall r, In r (CarImage.rows tb) ->
        CarImage.car r <> CarImage.car self ->
        CarImage.pk r <> CarImage.pk self' ->
        In r (CarImage.rows tb')).
Proof.
  unfold CarImage.save.
  set (demoted :=
         map (fun r => if (CarImage.car r =? CarImage.car self)
                          && CarImage.is_primary r
                       then CarImage.with_is_primary r false else r)
             (CarImage.rows tb)).
  assert (Hdem : forall r, In r demoted ->
            (In r (CarImage.rows tb)
             /\ (CarImage.car r = CarImage.car self ->
                 CarImage.is_primary r = false))
            \/ (CarImage.car r = CarImage.car self
                /\ CarImage.is_primary r = false)).
  { intros r Hr. apply in_map_iff in Hr. destruct Hr as [x [Hx Hin]].
    destruct (Z.eqb_spec (CarImage.car x) (CarImage.car self)) as [Hc|Hc];
      cbn [andb] in Hx.
    - destruct (CarImage.is_primary x) eqn:Hp.
      + right. subst r. split; [exact Hc|reflexivity].
      + left. subst r. auto.
    - left. subst r. split; [exact Hin|]. intros; contradiction. }
  assert (Hkeep : forall r, In r (CarImage.rows tb) ->
            CarImage.car r <> CarImage.car self -> In r demoted).
  { intros r Hin Hc. apply in_map_iff. exists r. split; [|exact Hin].
    destruct (Z.eqb_spec (CarImage.car r) (CarImage.car self));
      [contradiction|reflexivity]. }
  destruct (CarImage.is_primary self) eqn:Hprim.
  - pose proof (Model_save_rows now self
                  (CarImage.mkTable demoted (CarImage.next_id tb))) as H.
    cbv zeta in H. cbn [CarImage.rows] in H.
    destruct H as [Hin [Hcar [Hp [Hrows Hother]]]].
    cbv zeta. split; [exact Hin|]. split; [|split].
    + intros _ r Hr Hc Hpr. destruct (Hrows r Hr) as [->|Hd]; [reflexivity|].
      destruct (Hdem r Hd) as [[_ Hnp]|[_ Hnp]];
        [rewrite (Hnp Hc) in Hpr|rewrite Hnp in Hpr]; discriminate.
    + intros Hinv r1 r2 H1 H2 Hc P1 P2.
      destruct (Hrows r1 H1) as [->|D1]; destruct (Hrows r2 H2) as [->|D2].
      * reflexivity.
      * exfalso. destruct (Hdem r2 D2) as [[_ Hnp]|[_ Hnp]].
        -- rewrite Hnp in P2; [discriminate|congruence].
        -- rewrite Hnp in P2. discriminate.
      * exfalso. destruct (Hdem r1 D1) as [[_ Hnp]|[_ Hnp]].
        -- rewrite Hnp in P1; [discriminate|congruence].
        -- rewrite Hnp in P1. discriminate.
      * destruct (Hdem r1 D1) as [[I1 _]|[_ Hnp]];
          [|rewrite Hnp in P1; discriminate].
        destruct (Hdem r2 D2) as [[I2 _]|[_ Hnp]];
          [|rewrite Hnp in P2; discriminate].
        now apply Hinv.
    + intros r Hr Hc Hpk. apply Hother; [now apply Hkeep|exact Hpk].
  - pose proof (Model_save_rows now self tb) as H. cbv zeta in H.
    destruct H as [Hin [Hcar [Hp [Hrows Hother]]]].
    cbv zeta. split; [exact Hin|]. split; [discriminate|]. split.
    + intros Hinv r1 r2 H1 H2 Hc P1 P2.
      destruct (Hrows r1 H1) as [->|D1];
        [rewrite Hp, Hprim in P1; discriminate|].
      destruct (Hrows r2 H2) as [->|D2];
        [rewrite Hp, Hprim in P2; discriminate|].
      now apply Hinv.
    + intros r Hr _ Hpk. now apply Hother.
Qed.

(** ** Who may review a car *)

(** X11. [can_user_review_car] grants a review only on the strength of a
    completed booking of that car by that user: when it answers [True] for
    a booking taken from the table, or for no booking, the table holds such
    a booking; without a booking it answers [True] exactly then. *)
Theorem review_requires_completed_booking user car booking db :
  (forall b, booking = Some b -> In b (bookings db)) ->
  let entitled :=
    exists b, In b (bookings db) /\ Booking.user b = User.id user
              /\ Booking.car b = Car.id car /\ Booking.status b = completed in
  exists answer,
    CarReviewService.can_user_review_car user car booking db = (Ok answer, db)
    /\ (answer = true -> entitled)
    /\ (booking = None -> entitled -> answer = true).
Proof.
  intros Hrow entitled.
  assert (Hb : forall b,
            (Booking.user b =? User.id user) && (Booking.car b =? Car.id car)
            && Status_eqb (Booking.status b) completed = true
            <-> Booking.user b = User.id user /\ Booking.car b = Car.id car
                /\ Booking.status b = completed).
  { intros b. repeat rewrite andb_true_iff. repeat rewrite Z.eqb_eq.
    destruct (Status_eqb_spec (Booking.status b) completed); split;
      intros; try tauto. destruct H as [[_ _] H]. discriminate. }
  destruct booking as [b|].
  - eexists. split; [reflexivity|]. split; [|discriminate].
    intros H. apply Hb in H. exists b. split; [now apply Hrow|exact H].
  - eexists. split; [reflexivity|]. split.
    + intros H. apply existsb_exists in H. destruct H as [b [Hin H]].
      apply Hb in H. now exists b.
    + intros _ [b [Hin H]]. apply existsb_exists. exists b.
      split; [exact Hin|]. now apply Hb.
Qed.

Lemma review_requires_completed_booking_witness :
  CarReviewService.can_user_review_car alice (corolla available true) None
    (db_one available true completed None) = (Ok true, db_one available true completed None)
  /\ CarReviewService.can_user_review_car alice (corolla available true)
       (Some (booked 1 (jan 1 0) (jan 3 0) cancelled None))
       (db_one available true cancelled None)
     = (Ok false, db_one available true cancelled None).
Proof.
  split.
  - destruct (review_requires_completed_booking alice (corolla available true)
                None (db_one available true completed None))
      as [answer [Hrun [_ Hyes]]]; [discriminate|].
    rewrite Hrun. rewrite Hyes; [reflexivity|reflexivity|].
    exists (booked 1 (jan 1 0) (jan 3 0) completed None).
    split; [now left|]. repeat split.
  - destruct (review_requires_completed_booking alice (corolla available true)
                (Some (booked 1 (jan 1 0) (jan 3 0) cancelled None))
                (db_one available true cancelled None))
      as [answer [Hrun _]].
    + intros b Hb. inversion Hb. now left.
    + rewrite Hrun. vm_compute in Hrun. inversion Hrun. reflexivity.
Defined.

(** ** The booking views *)









Section WebhookViewFacts.

Variable Request : Type.
Variable verify_webhook : Request -> option Event.
Variable to_python : string -> option Z.


End WebhookViewFacts.

(** ** The overlap rule of the model and of the service *)


(** ** How the price steps *)

Lemma calculate_total_price_any car start end_ :
  Car.valid_price car -> valid_datetime start -> valid_datetime end_ ->
  BookingService._calculate_total_price car start end_ =
  PyDecimal.mk (Z.max ((end_ - start) / us_per_day) 1
                * PyDecimal.coef (Car.price_per_day car)) (-2).
Proof.
  intros [Hexp Hcoef] Hs He.
  assert (Hpos : 0 < us_per_day) by (vm_compute; reflexivity).
  assert (Hd : (end_ - start) / us_per_day < 3652059).
  { apply Z.div_lt_upper_bound; [assumption|].
    unfold valid_datetime, datetime_bound in *. lia. }
  unfold BookingService._calculate_total_price, PyDecimal.mul, PyDecimal.of_int,
    timedelta_days.
  set (days := Z.max ((end_ - start) / us_per_day) 1) in *.
  assert (1 <= days <= 3652059) by lia.
  rewrite fix_small; simpl.
  - now rewrite Hexp.
  - set (c := PyDecimal.coef (Car.price_per_day car)) in *.
    assert (0 < days * c) by nia.
    assert (days * c < 3652060 * 10 ^ 8) by nia.
    assert (3652060 * 10 ^ 8 < 10 ^ PyDecimal.prec) by (vm_compute; reflexivity).
    lia.
Qed.

(** X18. The price is charged by whole days, rounded down and never less
    than one: a range of less than 24 hours, even an empty or inverted one,
    costs one day; a range of at least [k] and less than [k + 1] days costs
    [k] days; and the total never decreases when the end moves later. *)
Theorem price_steps_by_whole_days car start end_ :
  Car.valid_price car -> valid_datetime start -> valid_datetime end_ ->
  (end_ - start < us_per_day ->
   BookingService._calculate_total_price car start end_ = Car.price_per_day car)
  /\ (forall k, 1 <= k ->
        k * us_per_day <= end_ - start < (k + 1) * us_per_day ->
        BookingService._calculate_total_price car start end_
        = PyDecimal.mk (k * PyDecimal.coef (Car.price_per_day car)) (-2))
  /\ (forall later, valid_datetime later -> end_ <= later ->
        PyDecimal.exp (BookingService._calculate_total_price car start later)
        = PyDecimal.exp (BookingService._calculate_total_price car start end_)
        /\ PyDecimal.coef (BookingService._calculate_total_price car start end_)
           <= PyDecimal.coef (BookingService._calculate_total_price car start later)).
Proof.
  intros Hprice Hs He.
  assert (Hpos : 0 < us_per_day) by (vm_compute; reflexivity).
  rewrite (calculate_total_price_any _ _ _ Hprice Hs He).
  split; [|split].
  - intros Hshort.
    assert ((end_ - start) / us_per_day <= 0).
    { destruct (Z_lt_le_dec (end_ - start) 0).
      - apply Z.lt_le_incl. now apply Z.div_lt_upper_bound; [|lia].
      - rewrite Z.div_small; lia. }
    replace (Z.max ((end_ - start) / us_per_day) 1) with 1 by lia.
    destruct Hprice as [Hexp _]. destruct (Car.price_per_day car) as [c e].
    cbn [PyDecimal.exp PyDecimal.coef] in *. subst e. f_equal. lia.
  - intros k Hk [Hlo Hhi].
    assert ((end_ - start) / us_per_day = k).
    { symmetry. apply Z.div_unique with (r := end_ - start - k * us_per_day);
        [left|]; lia. }
    replace (Z.max ((end_ - start) / us_per_day) 1) with k by lia.
    reflexivity.
  - intros later Hl Hle.
    rewrite (calculate_total_price_any _ _ _ Hprice Hs Hl).
    cbn [PyDecimal.exp PyDecimal.coef]. split; [reflexivity|].
    destruct Hprice as [_ Hc].
    assert ((end_ - start) / us_per_day <= (later - start) / us_per_day)
      by (apply Z.div_le_mono; lia).
    apply Z.mul_le_mono_nonneg_r; lia.
Qed.

Lemma price_steps_by_whole_days_witness :
  BookingService._calculate_total_price (corolla available true)
    (jan 2 10) (jan 1 10) = usd50
  /\ BookingService._calculate_total_price (corolla available true)
       (jan 1 10) (jan 3 9) = usd50.
Proof.
  assert (Hprice : Car.valid_price (corolla available true))
    by (split; [reflexivity|split; reflexivity]).
  assert (Hv : forall d h, 1 <= d <= 31 -> 0 <= h < 24 -> valid_datetime (jan d h)).
  { intros d h Hd Hh. unfold valid_datetime, jan, datetime_bound, us_per_day,
      us_per_hour. lia. }
  split.
  - apply (price_steps_by_whole_days (corolla available true) (jan 2 10) (jan 1 10)
             Hprice (Hv 2 10 ltac:(lia) ltac:(lia)) (Hv 1 10 ltac:(lia) ltac:(lia))).
    vm_compute. reflexivity.
  - destruct (price_steps_by_whole_days (corolla available true) (jan 1 10)
                (jan 3 9) Hprice (Hv 1 10 ltac:(lia) ltac:(lia))
                (Hv 3 9 ltac:(lia) ltac:(lia))) as [_ [Hk _]].
    rewrite (Hk 1); [reflexivity|lia|].
    split; vm_compute; [discriminate|reflexivity].
Defined.

(** ** Repeated webhook deliveries *)

Lemma map_replace_idem (c : Booking.t) rows :
  map (fun r => if Booking.id r =? Booking.id c then c else r)
      (map (fun r => if Booking.id r =? Booking.id c then c else r) rows)
  = map (fun r => if Booking.id r =? Booking.id c then c else r) rows.
Proof.
  induction rows as [|r rows IH]; simpl; [reflexivity|]. rewrite IH.
  destruct (Z.eqb_spec (Booking.id r) (Booking.id c)) as [E|E].
  - now rewrite Z.eqb_refl.
  - destruct (Z.eqb_spec (Booking.id r) (Booking.id c)); [contradiction|reflexivity].
Qed.

Lemma existsb_replaced (c : Booking.t) rows :
  existsb (fun r => Booking.id r =? Booking.id c) rows = true ->
  existsb (fun r => Booking.id r =? Booking.id c)
    (map (fun r => if Booking.id r =? Booking.id c then c else r) rows) = true.
Proof.
  intros H. apply existsb_exists. exists c. split; [|apply Z.eqb_refl].
  apply existsb_exists in H. destruct H as [r [Hin Hr]].
  apply in_map_iff. exists r. split; [now rewrite Hr|exact Hin].
Qed.

(** X19. Handling an event is idempotent: delivering the same event a
    second time gives the same answer and leaves the database exactly as
    the first delivery left it, for every event and every database. *)
Theorem webhook_redelivery_is_idempotent
    (to_python : string -> option Z) event db :
  let first := PaymentService.handle_webhook_event to_python event db in
  PaymentService.handle_webhook_event to_python event (snd first)
  = (fst first, snd first).
Proof.
  cbv zeta. unfold PaymentService.handle_webhook_event.
  destruct (String.eqb (ev_type event) "payment_intent.succeeded");
    [|reflexivity].
  unfold PaymentService._handle_payment_success.
  destruct (dict_get (pi_metadata (ev_data_object event)) "booking_id")
    as [s|]; [|reflexivity].
  destruct (String.eqb s EmptyString); [reflexivity|].
  destruct (to_python s) as [k|]; [|reflexivity].
  unfold bind.
  destruct (find (fun r => Booking.id r =? k) (bookings db)) as [b|] eqn:Hf.
  - pose proof (find_some _ _ Hf) as [Hin Hk]. apply Z.eqb_eq in Hk.
    set (c := Booking.with_status b confirmed).
    assert (Hidc : Booking.id c = k) by exact Hk.
    assert (Hex : existsb (fun r => Booking.id r =? Booking.id c) (bookings db)
                  = true).
    { apply existsb_exists. exists b. split; [exact Hin|].
      apply Z.eqb_eq. now rewrite Hidc. }
    set (db1 := mkDB (cars db)
                     (map (fun r => if Booking.id r =? Booking.id c then c else r)
                          (bookings db))
                     (next_booking_id db)).
    assert (Hget : Booking_objects_get k db = (Ok (Some b), db))
      by (unfold Booking_objects_get; now rewrite Hf).
    assert (Hsave : Booking_save c db = (Ok tt, db1))
      by (unfold Booking_save; now rewrite Hex).
    assert (Hget1 : Booking_objects_get k db1 = (Ok (Some c), db1)).
    { unfold Booking_objects_get. cbn [bookings db1]. rewrite <- Hidc.
      now rewrite (find_replaced _ Booking.id c _ Hex). }
    assert (Hsave1 : Booking_save c db1 = (Ok tt, db1)).
    { unfold Booking_save. cbn [bookings cars next_booking_id db1].
      now rewrite (existsb_replaced c _ Hex), map_replace_idem. }
    rewrite Hget. fold c. rewrite Hsave. cbn [fst snd]. rewrite Hget1.
    change (Booking.with_status c confirmed) with c. exact Hsave1.
  - assert (Hget : Booking_objects_get k db = (Ok None, db))
      by (unfold Booking_objects_get; now rewrite Hf).
    rewrite Hget. cbn [fst snd ret]. now rewrite Hget.
Qed.

(** * The service on Python's datetimes and the declared column *)

(** ** On aware datetimes and readable rows it is the service on instants *)

Lemma py_scan_aware rows s e :
  PyBookingService.scan_conflicts rows (Aware s) (Aware e)
  = Done (BookingService.scan_conflicts rows s e).
Proof.
  induction rows as [|b rest IH]; [reflexivity|].
  cbn [PyBookingService.scan_conflicts BookingService.scan_conflicts dt_le dt_ge].
  destruct (Booking.end_ b <=? s); cbn [orb negb]; [exact IH|].
  destruct (Booking.start b >=? e); cbn [orb negb]; [exact IH|reflexivity].
Qed.

Lemma fetch_active_readable db car :
  readable db (Car.id car) ->
  PyBookingService.fetch_active car db
  = (Done (filter (fun b => (Booking.car b =? Car.id car)
                            && status_in (Booking.status b) [pending; confirmed])
                  (bookings db)), db).
Proof.
  intros Hread. unfold PyBookingService.fetch_active, Booking_objects_filter.
  assert (H : forallb (fun b => total_price_fits (Booking.total_price b))
                (filter (fun b => (Booking.car b =? Car.id car)
                                  && status_in (Booking.status b)
                                       [pending; confirmed])
                        (bookings db)) = true).
  { apply forallb_forall. intros b Hb. apply filter_In in Hb.
    destruct Hb as [Hin Hb]. apply andb_true_iff in Hb. destruct Hb as [Hc Hs].
    apply Z.eqb_eq in Hc. apply status_in_active in Hs. now apply Hread. }
  now rewrite H.
Qed.

Lemma py_is_car_available_aware db car s e :
  readable db (Car.id car) ->
  PyBookingService._is_car_available car (Aware s) (Aware e) db
  = lift (BookingService._is_car_available car s e db).
Proof.
  intros Hread. unfold PyBookingService._is_car_available.
  rewrite (fetch_active_readable _ _ Hread), py_scan_aware. reflexivity.
Qed.

(** The refinement: with aware datetimes and readable rows the service is
    the one on instants, up to the column of the total at the insert. *)
Lemma py_create_booking_aware mk enf now user car_id s e db :
  readable db car_id ->
  PyBookingService.create_booking mk enf now user car_id (Aware s) (Aware e) db
  = match BookingService.create_booking now user car_id s e db with
    | (Ok b, db') =>
        if total_price_fits (Booking.total_price b)
        then (Done b, db')
        else match enf with
             | Some f => (Fail f, db)
             | None => (Done b, db')
             end
    | (Raise ex, db') => (Fail (Service ex), db')
    end.
Proof.
  intros Hread.
  unfold PyBookingService.create_booking, BookingService.create_booking, bind.
  unfold Car_objects_get at 1 2.
  destruct (find (fun c => Car.id c =? car_id) (cars db)) as [car|] eqn:Hfind;
    [|reflexivity].
  assert (Hid : Car.id car = car_id).
  { apply find_some in Hfind. destruct Hfind as [_ Hf]. now apply Z.eqb_eq in Hf. }
  rewrite py_is_car_available_aware by (now rewrite Hid).
  destruct (is_car_available_spec db car s e) as [free [Hrun _]].
  rewrite Hrun. cbn [lift].
  destruct free; cbn [negb]; [|reflexivity].
  unfold PyBookingService._calculate_total_price. cbn [dt_sub].
  unfold PyBookingService.Booking_objects_create.
  unfold Booking_objects_create. cbn [Booking.total_price lift PyBookingService.to_db].
  reflexivity.
Qed.

Lemma py_create_booking_free mk enf now user car_id s e db car :
  car_exists db car_id car -> readable db car_id ->
  ~ conflict db car_id s e ->
  total_price_fits (BookingService._calculate_total_price car s e) = true ->
  let b := Booking.mk (next_booking_id db) user car_id s e
             (BookingService._calculate_total_price car s e)
             pending None now in
  PyBookingService.create_booking mk enf now user car_id (Aware s) (Aware e) db
  = (Done b, mkDB (cars db) (bookings db ++ [b]) (next_booking_id db + 1)).
Proof.
  intros Hcar Hread Hfree Hfits b.
  rewrite (py_create_booking_aware _ _ _ _ _ _ _ _ Hread).
  rewrite (create_booking_free _ _ _ _ _ _ _ Hcar Hfree). cbv zeta.
  cbn [Booking.total_price]. now rewrite Hfits.
Qed.

Lemma py_create_booking_conflict mk enf now user car_id s e db car :
  car_exists db car_id car -> readable db car_id ->
  conflict db car_id s e ->
  PyBookingService.create_booking mk enf now user car_id (Aware s) (Aware e) db
  = (Fail (Service (BookingConflictError conflict_message)), db).
Proof.
  intros Hcar Hread Hc.
  rewrite (py_create_booking_aware _ _ _ _ _ _ _ _ Hread).
  now rewrite (create_booking_conflict _ _ _ _ _ _ _ Hcar Hc).
Qed.

(** Inserting a row whose total fits keeps the rows readable. *)
Lemma readable_after_insert db k b n :
  readable db k -> total_price_fits (Booking.total_price b) = true ->
  readable (mkDB (cars db) (bookings db ++ [b]) n) k.
Proof.
  intros Hread Hfits r Hin Hc Hs. cbn [bookings] in Hin.
  apply in_app_or in Hin. destruct Hin as [Hin|[<-|[]]]; [|exact Hfits].
  now apply Hread.
Qed.

(** C1, amended.  For an existing car, a range of aware datetimes with
    [start < end_], stored pending and confirmed bookings of the car whose
    totals fit the column, and a new total that fits it: [create_booking]
    succeeds exactly when no pending or confirmed booking of the car
    overlaps the range, where [[s1,e1)] and [[s2,e2)] overlap iff not
    ([e1 <= s2] or [s1 >= e2]).  On success the new row is appended with
    status [pending]; on a conflict, whatever the new total is, the call
    raises [BookingConflictError] and the database is unchanged.  Bookings
    that are cancelled, refunded or completed, and bookings that only share
    a boundary instant with the range, never block. *)
Theorem create_booking_iff_no_conflict_aware_in_range
    make_aware oversize_insert now user car_id start end_ db car :
  car_exists db car_id car -> start < end_ -> readable db car_id ->
  let run :=
    PyBookingService.create_booking make_aware oversize_insert now user car_id
      (Aware start) (Aware end_) db in
  let fits :=
    total_price_fits (BookingService._calculate_total_price car start end_)
    = true in
  (fits -> ((exists b db', run = (Done b, db'))
            <-> ~ conflict db car_id start end_))
  /\ (fits -> ~ conflict db car_id start end_ ->
      exists b,
        run = (Done b,
               mkDB (cars db) (bookings db ++ [b]) (next_booking_id db + 1))
        /\ Booking.status b = pending /\ Booking.car b = car_id
        /\ Booking.user b = user
        /\ Booking.start b = start /\ Booking.end_ b = end_)
  /\ (conflict db car_id start end_ ->
      run = (Fail (Service (BookingConflictError conflict_message)), db))
  /\ ((forall b, In b (bookings db) -> Booking.car b = car_id ->
         (Booking.status b = cancelled \/ Booking.status b = refunded
          \/ Booking.status b = completed)
         \/ Booking.end_ b <= start \/ end_ <= Booking.start b) ->
      ~ conflict db car_id start end_).
Proof.
  intros Hcar _ Hread run fits. subst run fits. repeat split.
  - intros [b [db' Hrun]] Hc.
    rewrite (py_create_booking_conflict _ _ _ _ _ _ _ _ _ Hcar Hread Hc) in Hrun.
    discriminate.
  - intros Hfree. do 2 eexists.
    now apply py_create_booking_free with (car := car).
  - intros Hfits Hfree. eexists. split.
    + now apply py_create_booking_free with (car := car).
    + simpl. repeat split.
  - intros Hc. now apply py_create_booking_conflict with (car := car).
  - intros H [b [Hin [Hc [Hs Ho]]]].
    destruct (H b Hin Hc) as [[Ht|[Ht|Ht]]|[Hb|Hb]];
      try (rewrite Ht in Hs; destruct Hs; discriminate);
      apply Ho; [left|right]; lia.
Qed.

Lemma create_booking_iff_no_conflict_aware_in_range_witness :
  car_exists (db_one rented true pending None) 7 (corolla rented true)
  /\ jan 3 0 < jan 5 0
  /\ readable (db_one rented true pending None) 7
  /\ total_price_fits
       (BookingService._calculate_total_price (corolla rented true)
          (jan 3 0) (jan 5 0)) = true
  /\ ~ conflict (db_one rented true pending None) 7 (jan 3 0) (jan 5 0)
  /\ exists b,
       PyBookingService.create_booking utc (Some DataError) (jan 2 9) 2 7
         (Aware (jan 3 0)) (Aware (jan 5 0)) (db_one rented true pending None)
       = (Done b, mkDB [corolla rented true]
                       [booked 1 (jan 1 0) (jan 3 0) pending None; b] 3)
       /\ Booking.status b = pending.
Proof.
  assert (Hcar : car_exists (db_one rented true pending None) 7
                            (corolla rented true)) by reflexivity.
  assert (Hlt : jan 3 0 < jan 5 0) by (vm_compute; reflexivity).
  assert (Hread : readable (db_one rented true pending None) 7).
  { intros b [<-|[]] _ _. vm_compute. reflexivity. }
  assert (Hfits : total_price_fits
                    (BookingService._calculate_total_price
                       (corolla rented true) (jan 3 0) (jan 5 0)) = true)
    by (vm_compute; reflexivity).
  destruct (create_booking_iff_no_conflict_aware_in_range utc (Some DataError) (jan 2 9) 2 7
              (jan 3 0) (jan 5 0) (db_one rented true pending None)
              (corolla rented true) Hcar Hlt Hread)
    as [_ [Hok [_ Hterm]]].
  assert (Hfree : ~ conflict (db_one rented true pending None) 7
                             (jan 3 0) (jan 5 0)).
  { apply Hterm. intros b [<-|[]] _. right. left. vm_compute. discriminate. }
  repeat split; try assumption.
  destruct (Hok Hfits Hfree) as [b [Hrun [Hs _]]].
  exists b. split; [exact Hrun|exact Hs].
Defined.

(** C1 as stated fails.  A range without offset on a car that has a
    non-overlapping confirmed booking: the comparison of the stored aware
    datetime with the naive one raises [TypeError].  A free range of 101
    days on a car at 999999.99 a day: the total has eleven digits, so a
    database that enforces the column refuses the insert; one that does not
    stores the row, and then the conflict query of the next request, for a
    range that is free, cannot read it. *)
Lemma create_booking_free_range_not_created :
  (car_exists (db_one rented true confirmed None) 7 (corolla rented true)
   /\ jan 4 0 < jan 6 0
   /\ ~ conflict (db_one rented true confirmed None) 7 (jan 4 0) (jan 6 0)
   /\ PyBookingService.create_booking utc (Some DataError) (jan 2 9) 2 7
        (Naive (jan 4 0)) (Naive (jan 6 0)) (db_one rented true confirmed None)
      = (Fail TypeError, db_one rented true confirmed None))
  /\ (car_exists db_limousine 8 limousine
      /\ jan 3 0 < jan 3 0 + days_101
      /\ ~ conflict db_limousine 8 (jan 3 0) (jan 3 0 + days_101)
      /\ PyBookingService.create_booking utc (Some DataError) (jan 2 9) 2 8
           (Aware (jan 3 0)) (Aware (jan 3 0 + days_101)) db_limousine
         = (Fail DataError, db_limousine))
  /\ (exists b db1,
        PyBookingService.create_booking utc None (jan 2 9) 2 8
          (Aware (jan 3 0)) (Aware (jan 3 0 + days_101)) db_limousine
        = (Done b, db1)
        /\ total_price_fits (Booking.total_price b) = false
        /\ car_exists db1 8 limousine
        /\ ~ conflict db1 8 (jan 1 0) (jan 2 0)
        /\ PyBookingService.create_booking utc None (jan 2 10) 3 8
             (Aware (jan 1 0)) (Aware (jan 2 0)) db1
           = (Fail InvalidOperation, db1)).
Proof.
  split; [|split].
  - split; [reflexivity|]. split; [vm_compute; reflexivity|].
    split; [|vm_compute; reflexivity].
    intros [b [[<-|[]] [_ [_ H]]]]. apply H. left. vm_compute. discriminate.
  - split; [reflexivity|]. split; [vm_compute; reflexivity|].
    split; [|vm_compute; reflexivity].
    intros [b [[] _]].
  - do 2 eexists. split; [vm_compute; reflexivity|].
    split; [vm_compute; reflexivity|]. split; [reflexivity|].
    split; [|vm_compute; reflexivity].
    intros [b [[<-|[]] [_ [_ H]]]]. apply H. right. vm_compute. discriminate.
Qed.

(** ** Whatever the datetimes are *)

(** A scan that ends well found every row before or after the range. *)
Lemma py_scan_done_true mk rows start end_ :
  PyBookingService.scan_conflicts rows start end_ = Done true ->
  forall b, In b rows ->
    Booking.end_ b <= PyBookingService.to_db mk start
    \/ Booking.start b >= PyBookingService.to_db mk end_.
Proof.
  induction rows as [|r rest IH]; intros H b Hin; [destruct Hin|].
  cbn [PyBookingService.scan_conflicts] in H.
  destruct start as [ws|s]; cbn [dt_le] in H; [discriminate|].
  cbn [PyBookingService.to_db] in *.
  destruct (Z.leb_spec (Booking.end_ r) s) as [Hle|Hgt].
  - destruct Hin as [<-|Hin]; [left; exact Hle|now apply IH].
  - destruct end_ as [we|e]; cbn [dt_ge] in H; [discriminate|].
    cbn [PyBookingService.to_db] in *.
    destruct (Z.geb_spec (Booking.start r) e) as [Hge|Hlt]; [|discriminate].
    destruct Hin as [<-|Hin]; [right; lia|now apply IH].
Qed.

(** [create_booking] either leaves the database as it was and returns no
    booking, or appends the one pending booking it returns, for a car that
    exists and a range that met no conflict. *)
Lemma py_create_booking_outcome mk enf now user car_id start end_ db r db' :
  PyBookingService.create_booking mk enf now user car_id start end_ db
  = (r, db') ->
  (db' = db /\ forall b, r <> Done b)
  \/ exists car total,
       car_exists db car_id car
       /\ PyBookingService._calculate_total_price car start end_ = Done total
       /\ ~ conflict db car_id (PyBookingService.to_db mk start)
                               (PyBookingService.to_db mk end_)
       /\ (total_price_fits total = true \/ enf = None)
       /\ r = Done (Booking.mk (next_booking_id db) user car_id
                      (PyBookingService.to_db mk start)
                      (PyBookingService.to_db mk end_) total pending None now)
       /\ db' = mkDB (cars db)
                  (bookings db
                   ++ [Booking.mk (next_booking_id db) user car_id
                         (PyBookingService.to_db mk start)
                         (PyBookingService.to_db mk end_) total pending None
                         now])
                  (next_booking_id db + 1).
Proof.
  unfold PyBookingService.create_booking, Car_objects_get.
  destruct (find (fun c => Car.id c =? car_id) (cars db)) as [car|] eqn:Hfind;
    [|intros H; inversion H; left; split; [reflexivity|intros b; discriminate]].
  assert (Hid : Car.id car = car_id).
  { apply find_some in Hfind. destruct Hfind as [_ Hf]. now apply Z.eqb_eq in Hf. }
  unfold PyBookingService._is_car_available, PyBookingService.fetch_active,
    Booking_objects_filter.
  destruct (forallb _ _);
    [|intros H; inversion H; left; split; [reflexivity|intros b; discriminate]].
  destruct (PyBookingService.scan_conflicts _ start end_) as [[|]|f] eqn:Hscan;
    cbn [negb];
    try (intros H; inversion H; left; split;
         [reflexivity|intros b; discriminate]).
  destruct (PyBookingService._calculate_total_price car start end_)
    as [total|f] eqn:Hprice;
    [|intros H; inversion H; left; split; [reflexivity|intros b; discriminate]].
  unfold PyBookingService.Booking_objects_create, Booking_objects_create.
  cbn [lift].
  destruct (total_price_fits total) eqn:Hcol;
    [|destruct enf as [f|];
      [intros H; inversion H; left; split;
       [reflexivity|intros b; discriminate]|]].
  all: intros H; inversion H; right; exists car, total.
  all: (split; [unfold car_exists, Car_objects_get; now rewrite Hfind|]).
  all: (split; [exact Hprice|]); split.
  all: try (rewrite Hid; split; [tauto|split; reflexivity]).
  all: intros [b [Hin [Hc [Hs Ho]]]]; apply Ho;
    apply (py_scan_done_true mk _ _ _ Hscan);
    apply filter_In; (split; [exact Hin|]);
    apply andb_true_iff; (split; [apply Z.eqb_eq; congruence|]);
    now apply status_in_active.
Qed.

(** ** The car's own flags play no part *)

Lemma py_create_booking_flags_irrelevant
    mk enf now user car_id start end_ db s a :
  PyBookingService.create_booking mk enf now user car_id start end_
    (set_car_flags s a car_id db)
  = (let (r, db') :=
       PyBookingService.create_booking mk enf now user car_id start end_ db
     in (r, set_car_flags s a car_id db')).
Proof.
  unfold PyBookingService.create_booking, Car_objects_get, set_car_flags.
  cbn [cars bookings next_booking_id]. rewrite find_car_flagged.
  destruct (find (fun c => Car.id c =? car_id) (cars db)) as [c|];
    [|reflexivity].
  cbn [option_map].
  unfold PyBookingService._is_car_available, PyBookingService.fetch_active,
    Booking_objects_filter.
  cbn [cars bookings next_booking_id].
  assert (Hid : Car.id (if Car.id c =? car_id
                        then Car.with_is_active (Car.with_status c s) a else c)
                = Car.id c) by (destruct (Car.id c =? car_id); reflexivity).
  assert (Hprice : PyBookingService._calculate_total_price
                     (if Car.id c =? car_id
                      then Car.with_is_active (Car.with_status c s) a else c)
                     start end_
                   = PyBookingService._calculate_total_price c start end_)
    by (destruct (Car.id c =? car_id); reflexivity).
  rewrite Hid, Hprice.
  destruct (forallb _ _); [|reflexivity].
  destruct (PyBookingService.scan_conflicts _ start end_) as [[|]|f];
    cbn [negb]; try reflexivity.
  destruct (PyBookingService._calculate_total_price c start end_)
    as [total|f]; [|reflexivity].
  unfold PyBookingService.Booking_objects_create, Booking_objects_create.
  cbn [cars bookings next_booking_id lift]. rewrite Hid.
  destruct (total_price_fits total); [reflexivity|].
  destruct enf; reflexivity.
Qed.

(** C9, amended.  [create_booking] never looks at the car's status or at
    its [is_active] flag.  For an existing car and a range of aware
    datetimes that no pending or confirmed booking of the car overlaps,
    with stored totals and a new total that fit the column, the booking is
    created as [pending], whatever the two flags are.  And for every
    request, replacing the flags of the car in the database changes neither
    the outcome nor the rows written. *)
Theorem create_booking_ignores_car_flags_aware_in_range
    make_aware oversize_insert now user car_id start end_ db car :
  car_exists db car_id car -> readable db car_id ->
  ~ conflict db car_id start end_ ->
  total_price_fits (BookingService._calculate_total_price car start end_)
  = true ->
  (exists b,
     PyBookingService.create_booking make_aware oversize_insert now user
       car_id (Aware start) (Aware end_) db
     = (Done b, mkDB (cars db) (bookings db ++ [b]) (next_booking_id db + 1))
     /\ Booking.status b = pending /\ Booking.car b = car_id)
  /\ (forall s a start' end',
        PyBookingService.create_booking make_aware oversize_insert now user
          car_id start' end' (set_car_flags s a car_id db)
        = (let (r, db') :=
             PyBookingService.create_booking make_aware oversize_insert now
               user car_id start' end' db
           in (r, set_car_flags s a car_id db'))).
Proof.
  intros Hcar Hread Hfree Hfits. split.
  - eexists. split; [now apply py_create_booking_free with (car := car)|].
    split; reflexivity.
  - intros s a start' end'. apply py_create_booking_flags_irrelevant.
Qed.

Lemma create_booking_ignores_car_flags_aware_in_range_witness :
  Car.is_available_for_booking (corolla maintenance false) = false
  /\ exists b,
       PyBookingService.create_booking utc (Some DataError) (jan 1 9) 2 7
         (Aware (jan 4 0)) (Aware (jan 6 0))
         (db_one maintenance false confirmed None)
       = (Done b, mkDB [corolla maintenance false]
                       [booked 1 (jan 1 0) (jan 3 0) confirmed None; b] 3)
       /\ Booking.status b = pending /\ Booking.car b = 7.
Proof.
  split; [reflexivity|].
  assert (Hcar : car_exists (db_one maintenance false confirmed None) 7
                            (corolla maintenance false)) by reflexivity.
  assert (Hread : readable (db_one maintenance false confirmed None) 7).
  { intros b [<-|[]] _ _. vm_compute. reflexivity. }
  assert (Hfree : ~ conflict (db_one maintenance false confirmed None) 7
                             (jan 4 0) (jan 6 0)).
  { intros [b [[<-|[]] [_ [_ H]]]]. apply H. left. vm_compute. discriminate. }
  assert (Hfits : total_price_fits
                    (BookingService._calculate_total_price
                       (corolla maintenance false) (jan 4 0) (jan 6 0)) = true)
    by (vm_compute; reflexivity).
  destruct (create_booking_ignores_car_flags_aware_in_range utc (Some DataError) (jan 1 9)
              2 7 (jan 4 0) (jan 6 0)
              (db_one maintenance false confirmed None)
              (corolla maintenance false) Hcar Hread Hfree Hfits)
    as [[b Hb] _].
  exists b. exact Hb.
Defined.

(** C9 as stated fails: on a car in maintenance and inactive, with a
    pending booking that does not overlap, a range given without offset is
    not booked; the conflict query raises [TypeError]. *)
Lemma create_booking_flagged_car_naive_range_not_created :
  Car.is_available_for_booking (corolla maintenance false) = false
  /\ car_exists (db_one maintenance false pending None) 7
                (corolla maintenance false)
  /\ ~ conflict (db_one maintenance false pending None) 7 (jan 10 0) (jan 12 0)
  /\ PyBookingService.create_booking utc None (jan 2 9) 3 7
       (Naive (jan 10 0)) (Naive (jan 12 0))
       (db_one maintenance false pending None)
     = (Fail TypeError, db_one maintenance false pending None).
Proof.
  split; [reflexivity|]. split; [reflexivity|].
  split; [|vm_compute; reflexivity].
  intros [b [[<-|[]] [_ [_ H]]]]. apply H. left. vm_compute. discriminate.
Qed.

(** ** Two requests at once *)

Lemma step_get mk enf now u car_id s e db car :
  car_exists db car_id car ->
  Concurrent.step mk enf now (Concurrent.AtGetCar u car_id s e) db
  = (Concurrent.AtCheck u car s e, db).
Proof. intros H. unfold Concurrent.step. now rewrite H. Qed.

Lemma step_check_free mk enf now u car s e db :
  readable db (Car.id car) -> ~ conflict db (Car.id car) s e ->
  Concurrent.step mk enf now (Concurrent.AtCheck u car (Aware s) (Aware e)) db
  = (Concurrent.AtInsert u car (Aware s) (Aware e), db).
Proof.
  intros Hread H. unfold Concurrent.step.
  rewrite (py_is_car_available_aware _ _ _ _ Hread).
  destruct (is_car_available_spec db car s e) as [free [Hrun Hiff]].
  rewrite Hrun. apply Hiff in H. now subst free.
Qed.

Lemma step_check_conflict mk enf now u car s e db :
  readable db (Car.id car) -> conflict db (Car.id car) s e ->
  Concurrent.step mk enf now (Concurrent.AtCheck u car (Aware s) (Aware e)) db
  = (Concurrent.Finished (Fail (Service (BookingConflictError conflict_message))),
     db).
Proof.
  intros Hread H. unfold Concurrent.step.
  rewrite (py_is_car_available_aware _ _ _ _ Hread).
  destruct (is_car_available_spec db car s e) as [free [Hrun Hiff]].
  rewrite Hrun. destruct free; [exfalso; now apply (proj1 Hiff)|reflexivity].
Qed.

Lemma step_insert mk enf now u car s e db :
  total_price_fits (BookingService._calculate_total_price car s e) = true ->
  Concurrent.step mk enf now (Concurrent.AtInsert u car (Aware s) (Aware e)) db
  = (Concurrent.Finished
       (Done (Booking.mk (next_booking_id db) u (Car.id car) s e
                (BookingService._calculate_total_price car s e) pending None
                now)),
     mkDB (cars db)
       (bookings db
        ++ [Booking.mk (next_booking_id db) u (Car.id car) s e
              (BookingService._calculate_total_price car s e) pending None now])
       (next_booking_id db + 1)).
Proof.
  intros Hfits. unfold Concurrent.step.
  change (PyBookingService._calculate_total_price car (Aware s) (Aware e))
    with (Done (BookingService._calculate_total_price car s e)).
  unfold PyBookingService.Booking_objects_create. rewrite Hfits.
  reflexivity.
Qed.

Lemma step_finished mk enf now r db :
  Concurrent.step mk enf now (Concurrent.Finished r) db
  = (Concurrent.Finished r, db).
Proof. reflexivity. Qed.

(** The three statements, run without interruption, are [create_booking]. *)
Lemma steps_are_create_booking mk enf now u car_id s e db :
  let (p1, db1) :=
    Concurrent.step mk enf now (Concurrent.AtGetCar u car_id s e) db in
  let (p2, db2) := Concurrent.step mk enf now p1 db1 in
  let (p3, db3) := Concurrent.step mk enf now p2 db2 in
  (p3, db3)
  = (let (r, db') :=
       PyBookingService.create_booking mk enf now u car_id s e db in
     (Concurrent.Finished r, db')).
Proof.
  unfold PyBookingService.create_booking. cbn [Concurrent.step].
  destruct (Car_objects_get car_id db) as [[[car|]|ex] db1];
    cbn [Concurrent.step]; try reflexivity.
  destruct (PyBookingService._is_car_available car s e db1)
    as [[[|]|f] db2]; cbn [Concurrent.step negb]; try reflexivity.
  destruct (PyBookingService._calculate_total_price car s e) as [total|f];
    [|reflexivity].
  destruct (PyBookingService.Booking_objects_create mk enf now u car s e total
              pending db2) as [r db3].
  reflexivity.
Qed.

Ltac readable_now :=
  first [ assumption
        | apply readable_after_insert;
          [assumption | cbn [Booking.total_price]; assumption] ].

Ltac run_statements mk enf car :=
  repeat (cbn [Concurrent.run Concurrent.req1 Concurrent.req2 Concurrent.sys_db
               cars bookings next_booking_id];
          first
            [ rewrite (step_insert mk enf) by assumption
            | rewrite (step_finished mk enf)
            | rewrite (step_get mk enf _ _ _ _ _ _ car)
                by (repeat apply car_exists_same_cars; assumption)
            | rewrite (step_check_free mk enf) by (readable_now || assumption)
            | rewrite (step_check_conflict mk enf)
                by (readable_now || (apply conflict_after_insert; lia)) ]);
  cbn [Concurrent.run Concurrent.req1 Concurrent.req2 Concurrent.sys_db
       cars bookings next_booking_id].

Ltac decide_schedule :=
  lazymatch goal with
  | |- context [Concurrent.checks_before_inserts ?l] =>
      let v := eval vm_compute in (Concurrent.checks_before_inserts l) in
      change (Concurrent.checks_before_inserts l) with v
  end; cbv iota.

(** C8, amended.  Two requests with aware datetimes for overlapping ranges
    on a car that is free for both, with stored totals and new totals that
    fit the column, are served as three database statements each, in any
    interleaving.  If one request's insert comes before the other's
    conflict query (as when the requests are served one after the other),
    exactly one succeeds, the other raises [BookingConflictError] and one
    row is stored.  The query and the insert are not one atomic unit: if
    both conflict queries come before either insert, both requests succeed
    and two rows are stored. *)
Theorem create_booking_pair_outcome_aware_in_range
    make_aware oversize_insert now1 now2 u1 u2 car_id s1 e1 s2 e2 db car
    schedule :
  car_exists db car_id car -> readable db car_id ->
  total_price_fits (BookingService._calculate_total_price car s1 e1) = true ->
  total_price_fits (BookingService._calculate_total_price car s2 e2) = true ->
  ~ conflict db car_id s1 e1 -> ~ conflict db car_id s2 e2 ->
  ~ (e1 <= s2 \/ s1 >= e2) ->
  In schedule Concurrent.interleavings ->
  let final :=
    Concurrent.run make_aware oversize_insert now1 now2 schedule
      (Concurrent.mkSys
         (Concurrent.AtGetCar u1 car_id (Aware s1) (Aware e1))
         (Concurrent.AtGetCar u2 car_id (Aware s2) (Aware e2)) db) in
  if Concurrent.checks_before_inserts schedule
  then Concurrent.succeeded (Concurrent.req1 final)
       /\ Concurrent.succeeded (Concurrent.req2 final)
       /\ List.length (bookings (Concurrent.sys_db final))
          = S (S (List.length (bookings db)))
  else (Concurrent.succeeded (Concurrent.req1 final)
        /\ Concurrent.conflicted (Concurrent.req2 final)
        \/ Concurrent.conflicted (Concurrent.req1 final)
           /\ Concurrent.succeeded (Concurrent.req2 final))
       /\ List.length (bookings (Concurrent.sys_db final))
          = S (List.length (bookings db)).
Proof.
  intros Hcar Hread Hfit1 Hfit2 Hf1 Hf2 Hov Hin final. subst final.
  pose proof (car_exists_id _ _ _ Hcar) as Hid. subst car_id.
  cbv in Hin.
  repeat (destruct Hin as [<-|Hin]); try contradiction;
    decide_schedule; run_statements make_aware oversize_insert car;
    unfold Concurrent.succeeded, Concurrent.conflicted;
    repeat rewrite length_app; cbn [List.length];
    repeat split; try lia;
    try (left; split; eexists; reflexivity);
    try (right; split; eexists; reflexivity);
    try (eexists; reflexivity).
Qed.

Lemma create_booking_pair_outcome_aware_in_range_witness :
  In Concurrent.serial Concurrent.interleavings
  /\ Concurrent.exactly_one_succeeded
       (Concurrent.run utc (Some DataError) (jan 1 9) (jan 1 9) Concurrent.serial
          two_requests)
  /\ In Concurrent.alternating Concurrent.interleavings
  /\ Concurrent.succeeded
       (Concurrent.req2
          (Concurrent.run utc (Some DataError) (jan 1 9) (jan 1 9) Concurrent.alternating
             two_requests)).
Proof.
  assert (Hcar : car_exists (db_empty available true) 7 (corolla available true))
    by reflexivity.
  assert (Hread : readable (db_empty available true) 7)
    by (intros b []).
  assert (Hfits : total_price_fits
                    (BookingService._calculate_total_price
                       (corolla available true) (jan 3 0) (jan 5 0)) = true)
    by (vm_compute; reflexivity).
  assert (Hfree : ~ conflict (db_empty available true) 7 (jan 3 0) (jan 5 0))
    by (intros [b [[] _]]).
  assert (Hov : ~ (jan 5 0 <= jan 3 0 \/ jan 3 0 >= jan 5 0))
    by (intros [H|H]; vm_compute in H; apply H; reflexivity).
  assert (Hserial : In Concurrent.serial Concurrent.interleavings)
    by (left; reflexivity).
  assert (Halt : In Concurrent.alternating Concurrent.interleavings)
    by (vm_compute; tauto).
  split; [exact Hserial|]. split; [|split; [exact Halt|]].
  - pose proof (create_booking_pair_outcome_aware_in_range utc (Some DataError)
                  (jan 1 9) (jan 1 9) 2 3 7
                  (jan 3 0) (jan 5 0) (jan 3 0) (jan 5 0)
                  (db_empty available true) (corolla available true)
                  Concurrent.serial Hcar Hread Hfits Hfits Hfree Hfree Hov
                  Hserial) as H.
    change (Concurrent.checks_before_inserts Concurrent.serial) with false in H.
    cbv zeta iota in H. exact (proj1 H).
  - pose proof (create_booking_pair_outcome_aware_in_range utc (Some DataError)
                  (jan 1 9) (jan 1 9) 2 3 7
                  (jan 3 0) (jan 5 0) (jan 3 0) (jan 5 0)
                  (db_empty available true) (corolla available true)
                  Concurrent.alternating Hcar Hread Hfits Hfits Hfree Hfree Hov
                  Halt) as H.
    change (Concurrent.checks_before_inserts Concurrent.alternating)
      with true in H.
    cbv zeta iota in H. exact (proj1 (proj2 H)).
Defined.

(** C8 as stated fails: served in alternation, both requests for the same
    range succeed and the car ends up with two overlapping pending
    bookings. *)
Lemma concurrent_aware_requests_both_succeed :
  let final :=
    Concurrent.run utc (Some DataError) (jan 1 9) (jan 1 9) Concurrent.alternating
      two_requests in
  let b1 := Booking.mk 1 2 7 (jan 3 0) (jan 5 0) (PyDecimal.mk 10000 (-2))
                       pending None (jan 1 9) in
  let b2 := Booking.mk 2 3 7 (jan 3 0) (jan 5 0) (PyDecimal.mk 10000 (-2))
                       pending None (jan 1 9) in
  Concurrent.req1 final = Concurrent.Finished (Done b1)
  /\ Concurrent.req2 final = Concurrent.Finished (Done b2)
  /\ bookings (Concurrent.sys_db final) = [b1; b2]
  /\ ~ Concurrent.exactly_one_succeeded final.
Proof.
  assert (H1 : Concurrent.req1
                 (Concurrent.run utc (Some DataError) (jan 1 9) (jan 1 9)
                    Concurrent.alternating two_requests)
               = Concurrent.Finished
                   (Done (Booking.mk 1 2 7 (jan 3 0) (jan 5 0)
                            (PyDecimal.mk 10000 (-2)) pending None (jan 1 9))))
    by (vm_compute; reflexivity).
  assert (H2 : Concurrent.req2
                 (Concurrent.run utc (Some DataError) (jan 1 9) (jan 1 9)
                    Concurrent.alternating two_requests)
               = Concurrent.Finished
                   (Done (Booking.mk 2 3 7 (jan 3 0) (jan 5 0)
                            (PyDecimal.mk 10000 (-2)) pending None (jan 1 9))))
    by (vm_compute; reflexivity).
  cbv zeta. split; [exact H1|]. split; [exact H2|].
  split; [vm_compute; reflexivity|].
  unfold Concurrent.exactly_one_succeeded, Concurrent.conflicted.
  rewrite H1, H2. intros [[_ [msg E]]|[[msg E] _]]; discriminate E.
Qed.

(** ** How the booking operations compose *)

(** X1. In the database as a successful [create_booking] left it, a request
    with aware datetimes for the same car whose range overlaps the stored
    one raises [BookingConflictError] and stores nothing, when the stored
    totals of the car, the new one included, fit the column. *)
Theorem booked_range_blocks_next_request
    make_aware oversize_insert now user car_id start end_ db car b db1
    now' user' start' end' :
  car_exists db car_id car -> readable db car_id ->
  PyBookingService.create_booking make_aware oversize_insert now user car_id
    start end_ db = (Done b, db1) ->
  total_price_fits (Booking.total_price b) = true ->
  ~ (Booking.end_ b <= start' \/ Booking.start b >= end') ->
  PyBookingService.create_booking make_aware oversize_insert now' user' car_id
    (Aware start') (Aware end') db1
  = (Fail (Service (BookingConflictError conflict_message)), db1).
Proof.
  intros Hcar Hread Hrun Hfits Hov.
  destruct (py_create_booking_outcome _ _ _ _ _ _ _ _ _ _ Hrun)
    as [[_ H]|[car' [total [_ [_ [_ [_ [Hb Hdb]]]]]]]];
    [exfalso; now apply (H b)|].
  inversion Hb as [Hb']. subst db1.
  apply py_create_booking_conflict with (car := car).
  - now apply car_exists_same_cars.
  - apply readable_after_insert; [exact Hread|]. now rewrite <- Hb'.
  - rewrite Hb' in Hov. cbn [Booking.end_ Booking.start] in Hov.
    now apply conflict_after_insert.
Qed.

Lemma booked_range_blocks_next_request_witness :
  exists b db1,
    PyBookingService.create_booking utc (Some DataError) (jan 1 9) 2 7
      (Aware (jan 3 0)) (Aware (jan 5 0)) (db_empty available true)
    = (Done b, db1)
    /\ PyBookingService.create_booking utc (Some DataError) (jan 1 10) 3 7
         (Aware (jan 4 0)) (Aware (jan 6 0)) db1
       = (Fail (Service (BookingConflictError conflict_message)), db1).
Proof.
  assert (Hcar : car_exists (db_empty available true) 7 (corolla available true))
    by reflexivity.
  assert (Hread : readable (db_empty available true) 7) by (intros b []).
  destruct (PyBookingService.create_booking utc (Some DataError) (jan 1 9) 2 7
              (Aware (jan 3 0)) (Aware (jan 5 0)) (db_empty available true))
    as [[b|f] db1] eqn:Hrun; [|vm_compute in Hrun; discriminate Hrun].
  exists b, db1. split; [reflexivity|].
  assert (Hb : b = Booking.mk 1 2 7 (jan 3 0) (jan 5 0)
                     (PyDecimal.mk 10000 (-2)) pending None (jan 1 9))
    by (vm_compute in Hrun; inversion Hrun; reflexivity).
  apply (booked_range_blocks_next_request utc (Some DataError) (jan 1 9) 2 7
           (Aware (jan 3 0)) (Aware (jan 5 0))
           (db_empty available true) (corolla available true) b db1
           (jan 1 10) 3 (jan 4 0) (jan 6 0) Hcar Hread Hrun).
  - rewrite Hb. vm_compute. reflexivity.
  - rewrite Hb. intros [H|H]; vm_compute in H; apply H; reflexivity.
Defined.

(** X2. Cancelling releases the range: if the cancelled booking was the
    only one blocking a range of aware datetimes on a car, and the stored
    totals of the car and the new total fit the column, [create_booking]
    for that range succeeds after [cancel_booking]. *)
Theorem cancelling_frees_the_range_aware_in_range
    make_aware oversize_insert booking db b' db1 car_id car now user
    start end_ :
  BookingService.cancel_booking booking db = (Ok b', db1) ->
  car_exists db car_id car -> readable db car_id ->
  total_price_fits (BookingService._calculate_total_price car start end_)
  = true ->
  (forall r, In r (bookings db) -> blocks car_id start end_ r ->
     Booking.id r = Booking.id booking) ->
  exists nb db2,
    PyBookingService.create_booking make_aware oversize_insert now user car_id
      (Aware start) (Aware end_) db1 = (Done nb, db2)
    /\ Booking.status nb = pending /\ In nb (bookings db2).
Proof.
  intros Hrun Hcar Hread Hfits Honly.
  assert (Hact : Booking.status booking = pending
                 \/ Booking.status booking = confirmed).
  { destruct (status_in (Booking.status booking) [pending; confirmed]) eqn:E.
    - now apply status_in_active.
    - unfold BookingService.cancel_booking in Hrun. rewrite E in Hrun.
      discriminate. }
  destruct (cancel_booking_active booking db Hact) as [db' [Hrun' Hsave]].
  rewrite Hrun in Hrun'. inversion Hrun'. subst b' db'. clear Hrun'.
  destruct (Booking_save_rows _ _ _ Hsave) as [_ [Hrows [_ Hcars]]].
  assert (Hcar1 : car_exists db1 car_id car)
    by (now apply car_exists_cars_eq with (db := db)).
  assert (Hread1 : readable db1 car_id).
  { intros r Hin Hc Hs. destruct (Hrows r Hin) as [->|[Hin0 _]].
    - destruct Hs as [E|E]; discriminate E.
    - now apply Hread. }
  assert (Hfree : ~ conflict db1 car_id start end_).
  { intros [r [Hin Hb]]. destruct (Hrows r Hin) as [->|[Hin0 Hne]].
    - destruct Hb as [_ [[E|E] _]]; discriminate E.
    - apply Hne. now apply Honly. }
  pose proof (py_create_booking_free make_aware oversize_insert now user
                car_id start end_ db1 car Hcar1 Hread1 Hfree Hfits) as Hnew.
  cbv zeta in Hnew.
  do 2 eexists. split; [exact Hnew|]. split; [reflexivity|].
  cbn [bookings]. apply in_or_app. right. left. reflexivity.
Qed.

Lemma cancelling_frees_the_range_aware_in_range_witness :
  PyBookingService.create_booking utc (Some DataError) (jan 1 9) 3 7
    (Aware (jan 2 0)) (Aware (jan 4 0)) (db_one rented true confirmed None)
  = (Fail (Service (BookingConflictError conflict_message)),
     db_one rented true confirmed None)
  /\ exists b' db1 nb db2,
       BookingService.cancel_booking
         (booked 1 (jan 1 0) (jan 3 0) confirmed None)
         (db_one rented true confirmed None) = (Ok b', db1)
       /\ PyBookingService.create_booking utc (Some DataError) (jan 1 9) 3 7
            (Aware (jan 2 0)) (Aware (jan 4 0)) db1
          = (Done nb, db2)
       /\ Booking.status nb = pending.
Proof.
  split; [vm_compute; reflexivity|].
  destruct (BookingService.cancel_booking
              (booked 1 (jan 1 0) (jan 3 0) confirmed None)
              (db_one rented true confirmed None)) as [[b'|e] db1] eqn:Hrun;
    [|vm_compute in Hrun; discriminate Hrun].
  assert (Hread : readable (db_one rented true confirmed None) 7).
  { intros b [<-|[]] _ _. vm_compute. reflexivity. }
  assert (Hfits : total_price_fits
                    (BookingService._calculate_total_price
                       (corolla rented true) (jan 2 0) (jan 4 0)) = true)
    by (vm_compute; reflexivity).
  destruct (cancelling_frees_the_range_aware_in_range utc (Some DataError)
              (booked 1 (jan 1 0) (jan 3 0) confirmed None)
              (db_one rented true confirmed None) b' db1 7
              (corolla rented true) (jan 1 9) 3 (jan 2 0) (jan 4 0)
              Hrun eq_refl Hread Hfits) as [nb [db2 [Hnew [Hs _]]]].
  - intros r [<-|[]] _. reflexivity.
  - exists b', db1, nb, db2. auto.
Defined.

(** ** Searching for available cars *)

(** X8. With both dates, [get_available_cars] lists a car exactly when it
    is available, active, matches the location filter and has no pending or
    confirmed booking that overlaps the period.  For a listed car whose
    stored totals and new total fit the column, [create_booking] with the
    period as aware datetimes succeeds; for an available, active, matching
    car that is not listed and whose stored totals fit, it raises
    [BookingConflictError]. *)
Theorem listed_cars_and_create_booking
    (icontains : string -> string -> bool)
    (make_aware : Z -> datetime) (oversize_insert : option Failure)
    location start end_ db :
  let location_ok (c : Car.t) :=
    match location with
    | Some l => l = EmptyString \/ icontains (Car.location c) l = true
    | None => True
    end in
  let shown (c : Car.t) :=
    In c (cars db) /\ Car.status c = available /\ Car.is_active c = true
    /\ location_ok c in
  exists listed,
    CarServiceQueries.get_available_cars icontains location
      (Some start) (Some end_) db = (Ok listed, db)
    /\ (forall c, In c listed <->
          shown c /\ ~ conflict db (Car.id c) start end_)
    /\ (forall c c' now user, In c listed ->
          car_exists db (Car.id c) c' -> readable db (Car.id c) ->
          total_price_fits (BookingService._calculate_total_price c' start end_)
          = true ->
          exists b db',
            PyBookingService.create_booking make_aware oversize_insert now
              user (Car.id c) (Aware start) (Aware end_) db
            = (Done b, db') /\ Booking.status b = pending)
    /\ (forall c now user, shown c -> ~ In c listed ->
          readable db (Car.id c) ->
          PyBookingService.create_booking make_aware oversize_insert now user
            (Car.id c) (Aware start) (Aware end_) db
          = (Fail (Service (BookingConflictError conflict_message)), db)).
Proof.
  intros location_ok shown.
  unfold CarServiceQueries.get_available_cars. eexists. split; [reflexivity|].
  assert (Hbase : forall c,
            In c (match location with
                  | Some l =>
                      if String.eqb l EmptyString
                      then filter Car.is_active (CarManager.available (cars db))
                      else filter (fun c => icontains (Car.location c) l)
                             (filter Car.is_active
                                (CarManager.available (cars db)))
                  | None => filter Car.is_active (CarManager.available (cars db))
                  end) <-> shown c).
  { intros c. unfold shown, location_ok, CarManager.available.
    assert (Hst : CarStatus_eqb (Car.status c) available = true
                  <-> Car.status c = available)
      by (destruct (Car.status c); simpl; split; congruence).
    destruct location as [l|].
    - destruct (String.eqb_spec l EmptyString) as [->|Hne].
      + repeat rewrite filter_In. rewrite Hst. tauto.
      + repeat rewrite filter_In. rewrite Hst. split.
        * intros [[[H1 H2] H3] H4]. auto.
        * intros [H1 [H2 [H3 [H4|H4]]]]; [contradiction|auto].
    - repeat rewrite filter_In. rewrite Hst. tauto. }
  assert (Hlisted : forall c,
            In c (filter
                    (fun c => negb (existsb (Z.eqb (Car.id c))
                       (map Booking.car
                          (filter (fun b =>
                                     status_in (Booking.status b) [pending; confirmed]
                                     && (Booking.start b <? end_)
                                     && (Booking.end_ b >? start))
                                  (bookings db)))))
                    (match location with
                     | Some l =>
                         if String.eqb l EmptyString
                         then filter Car.is_active (CarManager.available (cars db))
                         else filter (fun c => icontains (Car.location c) l)
                                (filter Car.is_active
                                   (CarManager.available (cars db)))
                     | None => filter Car.is_active (CarManager.available (cars db))
                     end))
            <-> shown c /\ ~ conflict db (Car.id c) start end_).
  { intros c. rewrite filter_In, Hbase, negb_true_iff.
    rewrite <- excluded_iff_conflict, not_true_iff_false. reflexivity. }
  split; [exact Hlisted|]. split.
  - intros c c' now user Hc Hcar Hread Hfits. apply Hlisted in Hc.
    destruct Hc as [_ Hfree].
    do 2 eexists.
    split; [now apply py_create_booking_free with (car := c')|].
    reflexivity.
  - intros c now user Hshown Hnot Hread.
    destruct Hshown as [Hin Hrest].
    destruct (in_cars_exists db c Hin) as [c' Hcar].
    apply py_create_booking_conflict with (car := c');
      [exact Hcar|exact Hread|].
    apply excluded_iff_conflict.
    destruct (existsb _ _) eqn:E; [reflexivity|]. exfalso. apply Hnot.
    apply Hlisted. split; [split; assumption|].
    rewrite <- excluded_iff_conflict. rewrite E. discriminate.
Qed.

(** ** The [create] view *)

Lemma answer_of_not_created f body : answer_of f <> Response 201 body.
Proof. destruct f as [[m|m]| | |]; discriminate. Qed.

Section CreateView.

Variable parse_datetime : string -> Res (option PyDatetime).
Variable uuid_to_python : string -> option Z.
Variable make_aware : Z -> datetime.
Variable oversize_insert : option Failure.

(** X12. Whatever strings the request holds, the [create] view either leaves the
    database as it was, and then does not answer 201, or appends one
    booking: pending, of the requesting user, for the car of the request,
    with the range that parsed from the request, for which Python's
    [start >= end] is false and which met no conflict.  When it appended,
    it answers 201 with that booking if the total fits the column, and
    fails with [InvalidOperation] in the serializer if not. *)
Theorem create_view_stores_only_valid_bookings now user data db :
  let answer :=
    fst (BookingViewSet.create parse_datetime uuid_to_python make_aware
           oversize_insert now user data db) in
  let db' :=
    snd (BookingViewSet.create parse_datetime uuid_to_python make_aware
           oversize_insert now user data db) in
  (db' = db /\ forall body, answer <> Response 201 body)
  \/ exists b car_id start end_,
       db' = mkDB (cars db) (bookings db ++ [b]) (next_booking_id db + 1)
       /\ answer = (if total_price_fits (Booking.total_price b)
                    then Response 201 (BookingData b)
                    else Uncaught "InvalidOperation")
       /\ uuid_to_python (value_of (dict_get data "car")) = Some car_id
       /\ parse_datetime (value_of (dict_get data "start")) = Ok (Some start)
       /\ parse_datetime (value_of (dict_get data "end")) = Ok (Some end_)
       /\ dt_ge start end_ = Done false
       /\ Booking.start b = PyBookingService.to_db make_aware start
       /\ Booking.end_ b = PyBookingService.to_db make_aware end_
       /\ ~ conflict db car_id (Booking.start b) (Booking.end_ b)
       /\ Booking.user b = User.id user /\ Booking.car b = car_id
       /\ Booking.status b = pending.
Proof.
  unfold BookingViewSet.create, BookingViewSet._validate_booking_data.
  destruct (negb _);
    [left; split; [reflexivity|intros body; apply answer_of_not_created]|].
  destruct (parse_datetime (value_of (dict_get data "start")))
    as [[start|]|e] eqn:Hs;
    try (left; split; [reflexivity|intros body; apply answer_of_not_created]);
  destruct (parse_datetime (value_of (dict_get data "end")))
    as [[end_|]|e'] eqn:He;
    try (left; split; [reflexivity|intros body; apply answer_of_not_created]).
  destruct (dt_ge start end_) as [[|]|f] eqn:Hge;
    try (left; split; [reflexivity|intros body; apply answer_of_not_created]).
  cbn [bd_car_id bd_start bd_end].
  destruct (uuid_to_python (value_of (dict_get data "car"))) as [car_id|] eqn:Hu;
    [|left; split; [reflexivity|intros body; discriminate]].
  destruct (PyBookingService.create_booking make_aware oversize_insert now
              (User.id user) car_id start end_ db) as [r db1] eqn:Hrun.
  destruct (py_create_booking_outcome _ _ _ _ _ _ _ _ _ _ Hrun)
    as [[Hdb Hr]|[car [total [_ [_ [Hfree [_ [Hb Hdb]]]]]]]].
  - left. subst db1. destruct r as [b|f]; [exfalso; now apply (Hr b)|].
    split; [reflexivity|intros body; apply answer_of_not_created].
  - right. subst r db1.
    match type of Hrun with _ = (Done ?b, _) => exists b end.
    exists car_id, start, end_. cbn [Booking.total_price].
    destruct (total_price_fits total); cbn [fst snd];
      (split; [reflexivity|]; split; [reflexivity|]);
      repeat split; assumption.
Qed.

(** X13. For a request whose car, start and end are present, whose
    datetimes parse with an offset, on an existing car whose stored totals
    fit the column, the [create] view answers 400 when [start >= end]
    (nothing reaches the service) and 409 when the range meets a conflict.
    Otherwise it answers 201 with the stored booking if the new total fits
    the column; if it does not, nothing is stored by a database that
    enforces the column, and the booking is stored without a 201 by one
    that does not. *)
Theorem create_view_answers now user data db car_id car start end_ :
  truthy (dict_get data "car") = true ->
  truthy (dict_get data "start") = true ->
  truthy (dict_get data "end") = true ->
  parse_datetime (value_of (dict_get data "start")) = Ok (Some (Aware start)) ->
  parse_datetime (value_of (dict_get data "end")) = Ok (Some (Aware end_)) ->
  uuid_to_python (value_of (dict_get data "car")) = Some car_id ->
  car_exists db car_id car -> readable db car_id ->
  let run :=
    BookingViewSet.create parse_datetime uuid_to_python make_aware
      oversize_insert now user data db in
  let total := BookingService._calculate_total_price car start end_ in
  let b := Booking.mk (next_booking_id db) (User.id user) car_id start end_
             total pending None now in
  (start >= end_ ->
   run = (Response 400 (Detail "Start date must be before end date"), db))
  /\ (start < end_ -> conflict db car_id start end_ ->
      run = (Response 409 (Detail conflict_message), db))
  /\ (start < end_ -> ~ conflict db car_id start end_ ->
      total_price_fits total = true ->
      run = (Response 201 (BookingData b),
             mkDB (cars db) (bookings db ++ [b]) (next_booking_id db + 1)))
  /\ (start < end_ -> ~ conflict db car_id start end_ ->
      total_price_fits total = false ->
      run = match oversize_insert with
            | Some f => (answer_of f, db)
            | None => (Uncaught "InvalidOperation",
                       mkDB (cars db) (bookings db ++ [b])
                            (next_booking_id db + 1))
            end).
Proof.
  intros Hc Hs He Hps Hpe Hu Hcar Hread run total b. subst run.
  unfold BookingViewSet.create, BookingViewSet._validate_booking_data.
  rewrite Hc, Hs, He, Hps, Hpe. cbn [andb negb dt_ge].
  split; [|split; [|split]].
  - intros Hge. destruct (Z.geb_spec start end_); [reflexivity|lia].
  - intros Hlt Hconf. destruct (Z.geb_spec start end_); [lia|].
    cbn [bd_car_id bd_start bd_end]. rewrite Hu.
    now rewrite (py_create_booking_conflict _ _ _ _ _ _ _ _ _ Hcar Hread Hconf).
  - intros Hlt Hfree Hfits. destruct (Z.geb_spec start end_); [lia|].
    cbn [bd_car_id bd_start bd_end]. rewrite Hu.
    rewrite (py_create_booking_free _ _ _ _ _ _ _ _ _ Hcar Hread Hfree Hfits).
    cbv zeta. cbn [Booking.total_price]. fold total. now rewrite Hfits.
  - intros Hlt Hfree Hfits. destruct (Z.geb_spec start end_); [lia|].
    cbn [bd_car_id bd_start bd_end]. rewrite Hu.
    rewrite (py_create_booking_aware _ _ _ _ _ _ _ _ Hread).
    rewrite (create_booking_free _ _ _ _ _ _ _ Hcar Hfree). cbv zeta.
    cbn [Booking.total_price]. fold total. rewrite Hfits.
    destruct oversize_insert; cbv beta iota; [reflexivity|].
    cbn [Booking.total_price]. fold total. now rewrite Hfits.
Qed.

End CreateView.

Lemma create_view_answers_witness :
  exists b,
    BookingViewSet.create parse_two_dates uuid_of_corolla utc (Some DataError) (jan 1 9)
      alice booking_request (db_empty available true)
    = (Response 201 (BookingData b),
       mkDB [corolla available true] [b] 2)
    /\ Booking.user b = 2 /\ Booking.status b = pending.
Proof.
  assert (Hread : readable (db_empty available true) 7) by (intros b []).
  destruct (create_view_answers parse_two_dates uuid_of_corolla utc (Some DataError)
              (jan 1 9) alice booking_request (db_empty available true) 7
              (corolla available true) (jan 3 0) (jan 5 0)
              eq_refl eq_refl eq_refl eq_refl eq_refl eq_refl eq_refl Hread)
    as [_ [_ [H _]]].
  eexists. split; [apply H|split; reflexivity].
  - vm_compute. reflexivity.
  - intros [r [[] _]].
  - vm_compute. reflexivity.
Defined.
